(** * The bootstrap layer of the fastapi service

    A shallow embedding of [src/fastapi/fastapi.py]: the module that creates
    the Flask application object and brings its subsystems up in a fixed
    order ([init_app]), discovers blueprints ([register_blueprints]),
    instruments SQL statements ([before_cursor_execute],
    [after_cursor_execute]) and wraps Celery tasks in an application context
    ([init_celery]).

    The module is written against mutable process-wide objects ([app],
    [celery], [os.environ], the logging tree).  They are gathered here into
    one record, [World], and every function of the module becomes a
    computation [M A = World -> result A * World]: it returns a value or
    raises, and leaves the world as it was at that point.

    What the module calls is of three kinds.  The methods of the Flask
    application and of Celery that the properties below depend on
    ([config.from_object], [register_error_handler], [register_blueprint],
    [app_context], the lookup of an error handler) are given as definitions
    that follow Flask 0.12/1.x.  The collaborators whose effect stays
    outside ([db.init_app], [init_redis_client], [Sentry], the limiter, the
    cache, the signal handlers, the file system) are recorded as calls, and
    any of them may raise.  The parts of the repository that this file does
    not contain (the profile table [fastapi.config.config], the modules
    under [fastapi.api]) are a part of the world the properties quantify
    over.

    Strings are byte strings (the UTF-8 encoding of Python's [str]). *)

From stdpp Require Import base option list gmap strings pretty.
From Stdlib Require Import ZArith Ascii.
From Stdlib Require String.

(** ** Python values, exceptions and results *)

(** The values that occur as configuration values and as bound statement
    parameters.  [VObj text] is an object of any other class (a [Decimal], a
    [datetime], ...), known only by the text [str()] gives for it; it has no
    string methods and the default truth value. *)
Inductive PyVal :=
| VNone
| VBool (b : bool)
| VInt (n : Z)
| VStr (s : string)
| VObj (text : string).

(** [str(v)], which is also what ['{}'.format(v)] renders. *)
Definition py_str (v : PyVal) : string :=
  match v with
  | VNone => "None"
  | VBool true => "True"
  | VBool false => "False"
  | VInt n => pretty n
  | VStr s => s
  | VObj text => text
  end.

(** Truth value testing, as [not v] and [if v] do it. *)
Definition py_bool (v : PyVal) : bool :=
  match v with
  | VNone => false
  | VBool b => b
  | VInt n => negb (n =? 0)%Z
  | VStr s => negb (String.eqb s "")
  | VObj _ => true
  end.

Inductive Exn :=
| KeyError (key : string)
| AttributeError (what : string)
| TypeError (what : string)
| ValueError (what : string)
| AssertionError (what : string)
| RuntimeError (what : string)
| ImportError (name : string)
| OSError (what : string)
| OtherError (what : string).

Inductive result (A : Type) :=
| Ok (a : A)
| Raise (e : Exn).
Arguments Ok {A} a.
Arguments Raise {A} e.

Definition is_ok {A} (r : result A) : bool :=
  match r with Ok _ => true | Raise _ => false end.

(** ** String operations used by the module *)

Definition newline : ascii := "010"%char.
Definition space : ascii := " "%char.

(** [s.replace(old, new)] for one-character [old] and [new]. *)
Fixpoint replace (old new : ascii) (s : string) : string :=
  match s with
  | EmptyString => EmptyString
  | String c s' =>
      String (if Ascii.eqb c old then new else c) (replace old new s')
  end.

Definition is_lower_letter (c : ascii) : bool :=
  let n := nat_of_ascii c in (97 <=? n)%nat && (n <=? 122)%nat.
Definition is_upper_letter (c : ascii) : bool :=
  let n := nat_of_ascii c in (65 <=? n)%nat && (n <=? 90)%nat.

Definition lower_char (c : ascii) : ascii :=
  if is_upper_letter c then ascii_of_nat (nat_of_ascii c + 32) else c.

(** [s.lower()] on the ASCII letters. *)
Fixpoint lower (s : string) : string :=
  match s with
  | EmptyString => EmptyString
  | String c s' => String (lower_char c) (lower s')
  end.

Fixpoint string_forallb (p : ascii -> bool) (s : string) : bool :=
  match s with
  | EmptyString => true
  | String c s' => p c && string_forallb p s'
  end.

Fixpoint string_existsb (p : ascii -> bool) (s : string) : bool :=
  match s with
  | EmptyString => false
  | String c s' => p c || string_existsb p s'
  end.

(** [s.isupper()]: no lower-case letter, and at least one upper-case one. *)
Definition isupper (s : string) : bool :=
  string_forallb (fun c => negb (is_lower_letter c)) s
  && string_existsb is_upper_letter s.

Definition startswith_sep (s : string) : bool :=
  match s with String "/" _ => true | _ => false end.

Fixpoint endswith_sep (s : string) : bool :=
  match s with
  | EmptyString => false
  | String c EmptyString => Ascii.eqb c "/"
  | String _ s' => endswith_sep s'
  end.

(** [os.path.join(a, b)] of posixpath. *)
Definition path_join (a b : string) : string :=
  if startswith_sep b then b
  else if String.eqb a "" || endswith_sep a then a ++ b
  else a ++ "/" ++ b.

(** [os.fspath] on the values above: only a [str] is a path. *)
Definition fspath (v : PyVal) : result string :=
  match v with
  | VStr s => Ok s
  | _ => Raise (TypeError "expected str, bytes or os.PathLike object")
  end.

(** ** The objects the module works on *)

(** logging: the numeric levels, handlers and submitted records. *)
Definition logging_DEBUG : Z := 10.
Definition logging_INFO : Z := 20.
Definition logging_WARNING : Z := 30.
Definition logging_ERROR : Z := 40.
Definition logging_CRITICAL : Z := 50.

Inductive HandlerClass :=
| StreamHandler
| TimedRotatingFileHandler (filename when : string) (interval backupCount : Z).

Record LogHandler := {
  h_class : HandlerClass;
  h_suffix : option string;
  h_level : Z;
  h_formatter : option string }.

(** A record handed to [app.logger]: the severity it was logged at and its
    message. *)
Record LogRecord := { levelno : Z; message : string }.

(** [logging._nameToLevel]. *)
Definition nameToLevel : list (string * Z) :=
  [("CRITICAL", 50); ("FATAL", 50); ("ERROR", 40); ("WARN", 30);
   ("WARNING", 30); ("INFO", 20); ("DEBUG", 10); ("NOTSET", 0)]%Z.

Fixpoint assoc {V} (k : string) (l : list (string * V)) : option V :=
  match l with
  | [] => None
  | (k', v) :: l' => if String.eqb k k' then Some v else assoc k l'
  end.

(** [logging._checkLevel], which [Handler.setLevel] applies to its argument. *)
Definition checkLevel (level : PyVal) : result Z :=
  match level with
  | VInt n => Ok n
  | VBool b => Ok (if b then 1 else 0)%Z
  | VStr s =>
      match assoc s nameToLevel with
      | Some n => Ok n
      | None => Raise (ValueError ("Unknown level: '" ++ s ++ "'"))
      end
  | _ => Raise (TypeError "Level not an integer or a valid string")
  end.

(** Exception classes as the error-handler table keys them.  [C_HTTP code]
    is [werkzeug.exceptions.default_exceptions[code]], the class [abort(code)]
    and the router raise; [C_APIError] is [fastapi.utils.error.APIError] and
    [C_APIError_sub name] a class derived from it; [C_Other name] is any
    other exception class.  The declaration of [APIError] is not part of
    this module: it is taken to be an exception class of the application's
    own, with no HTTP status code attached to the class. *)
Inductive ExcClass :=
| C_HTTP (code : Z)
| C_APIError
| C_APIError_sub (name : string)
| C_Other (name : string).

#[global] Instance ExcClass_eq_dec : EqDecision ExcClass.
Proof. solve_decision. Defined.

(** The handlers and hooks this module imports; their bodies live in
    [fastapi.utils.error_handlers] and [fastapi.utils.hooks]. *)
Inductive ErrorHandler :=
| error_404_handler
| error_429_handler
| error_handler.

Inductive Hook :=
| before_request_handler
| after_request_handler.

(** A blueprint: [bp_id] stands for the object's identity, [bp_rules] for the
    (rule, endpoint) pairs its routes were declared with. *)
Record Blueprint := {
  bp_id : nat;
  bp_name : string;
  url_prefix : option string;
  bp_rules : list (string * string) }.

(** A rule bound into the application's URL map: the prefix it was bound
    under, the rule, and the endpoint [name.endpoint]. *)
Record BoundRule := {
  rule_prefix : option string;
  rule_path : string;
  rule_endpoint : string }.

(** A module under [fastapi.api]: all that matters is its [bp] attribute. *)
Record PyModule := { mod_bp : option Blueprint }.

(** The Flask application object [app]. *)
Record Flask := {
  config : gmap string PyVal;
  logger_handlers : list LogHandler;
  logger_records : list LogRecord;
  error_handler_spec : list (option Z * ExcClass * ErrorHandler);
  before_request_funcs : list Hook;
  after_request_funcs : list Hook;
  blueprints : gmap string Blueprint;
  url_map : list BoundRule }.

(** Calls that leave the module for a collaborator whose code is elsewhere:
    the file system, the extensions and [fastapi.signals]. *)
Inductive ExtCall :=
| X_mkdir (path : string)
| X_open_log (filename : string)
| X_db_init_app
| X_init_redis_client
| X_Sentry (dsn : PyVal)
| X_limiter_init_app
| X_cache_init_app
| X_find_modules (import_path : string)
| X_signals_register.

(** The functions [init_app] calls. *)
Inductive Func :=
| f_init_config
| f_init_logger
| f_init_error_handlers
| f_init_hooks
| f_init_db
| f_init_redis
| f_init_sentry
| f_init_celery
| f_init_limiter
| f_init_cache
| f_register_blueprints
| f_register_signal_handlers.

#[global] Instance Func_eq_dec : EqDecision Func.
Proof. solve_decision. Defined.

(** [celery.Task]: Celery's own task class, or a [ContextTask] subclass
    that [init_celery] derived from the class [TaskBase] it found there. *)
Inductive TaskClass :=
| Task
| ContextTask (TaskBase : TaskClass).

(** An application context on [_app_ctx_stack]; the process has one
    application, so a context is known by the import name of its app. *)
Record AppContext := { ctx_app : string }.

(** The process state.
    - [environ] is [os.environ];
    - [profiles] is the table [fastapi.config.config], from discriminator to
      configuration object, an object being the map of its attributes;
    - [api_modules] lists the modules [find_modules('fastapi.api')] yields,
      each with what [import_string] gives for it;
    - [ext_raises] tells which collaborator calls raise in this process;
    - [dirs] are the directories that exist;
    - [ext_calls] and [calls] are the histories of collaborator calls made
      and of bootstrap functions entered. *)
Record World := {
  environ : gmap string string;
  profiles : gmap string (gmap string PyVal);
  api_modules : list (string * result PyModule);
  ext_raises : ExtCall -> option Exn;
  dirs : gset string;
  app : Flask;
  app_ctx_stack : list AppContext;
  celery_conf : gmap string PyVal;
  celery_Task : TaskClass;
  ext_calls : list ExtCall;
  calls : list Func }.

(** Field updates. *)
Definition set_config (c : gmap string PyVal) (a : Flask) : Flask :=
  {| config := c; logger_handlers := logger_handlers a;
     logger_records := logger_records a;
     error_handler_spec := error_handler_spec a;
     before_request_funcs := before_request_funcs a;
     after_request_funcs := after_request_funcs a;
     blueprints := blueprints a; url_map := url_map a |}.

Definition set_logger_handlers (hs : list LogHandler) (a : Flask) : Flask :=
  {| config := config a; logger_handlers := hs;
     logger_records := logger_records a;
     error_handler_spec := error_handler_spec a;
     before_request_funcs := before_request_funcs a;
     after_request_funcs := after_request_funcs a;
     blueprints := blueprints a; url_map := url_map a |}.

Definition set_logger_records (rs : list LogRecord) (a : Flask) : Flask :=
  {| config := config a; logger_handlers := logger_handlers a;
     logger_records := rs;
     error_handler_spec := error_handler_spec a;
     before_request_funcs := before_request_funcs a;
     after_request_funcs := after_request_funcs a;
     blueprints := blueprints a; url_map := url_map a |}.

Definition set_error_handler_spec
    (s : list (option Z * ExcClass * ErrorHandler)) (a : Flask) : Flask :=
  {| config := config a; logger_handlers := logger_handlers a;
     logger_records := logger_records a;
     error_handler_spec := s;
     before_request_funcs := before_request_funcs a;
     after_request_funcs := after_request_funcs a;
     blueprints := blueprints a; url_map := url_map a |}.

Definition set_request_funcs (bs afs : list Hook) (a : Flask) : Flask :=
  {| config := config a; logger_handlers := logger_handlers a;
     logger_records := logger_records a;
     error_handler_spec := error_handler_spec a;
     before_request_funcs := bs;
     after_request_funcs := afs;
     blueprints := blueprints a; url_map := url_map a |}.

Definition set_routes (bps : gmap string Blueprint) (m : list BoundRule)
    (a : Flask) : Flask :=
  {| config := config a; logger_handlers := logger_handlers a;
     logger_records := logger_records a;
     error_handler_spec := error_handler_spec a;
     before_request_funcs := before_request_funcs a;
     after_request_funcs := after_request_funcs a;
     blueprints := bps; url_map := m |}.

Definition set_app (a : Flask) (w : World) : World :=
  {| environ := environ w; profiles := profiles w;
     api_modules := api_modules w; ext_raises := ext_raises w;
     dirs := dirs w; app := a; app_ctx_stack := app_ctx_stack w;
     celery_conf := celery_conf w; celery_Task := celery_Task w;
     ext_calls := ext_calls w; calls := calls w |}.

Definition set_dirs (d : gset string) (w : World) : World :=
  {| environ := environ w; profiles := profiles w;
     api_modules := api_modules w; ext_raises := ext_raises w;
     dirs := d; app := app w; app_ctx_stack := app_ctx_stack w;
     celery_conf := celery_conf w; celery_Task := celery_Task w;
     ext_calls := ext_calls w; calls := calls w |}.

Definition set_app_ctx_stack (s : list AppContext) (w : World) : World :=
  {| environ := environ w; profiles := profiles w;
     api_modules := api_modules w; ext_raises := ext_raises w;
     dirs := dirs w; app := app w; app_ctx_stack := s;
     celery_conf := celery_conf w; celery_Task := celery_Task w;
     ext_calls := ext_calls w; calls := calls w |}.

Definition set_celery (c : gmap string PyVal) (t : TaskClass) (w : World)
    : World :=
  {| environ := environ w; profiles := profiles w;
     api_modules := api_modules w; ext_raises := ext_raises w;
     dirs := dirs w; app := app w; app_ctx_stack := app_ctx_stack w;
     celery_conf := c; celery_Task := t;
     ext_calls := ext_calls w; calls := calls w |}.

Definition set_ext_calls (l : list ExtCall) (w : World) : World :=
  {| environ := environ w; profiles := profiles w;
     api_modules := api_modules w; ext_raises := ext_raises w;
     dirs := dirs w; app := app w; app_ctx_stack := app_ctx_stack w;
     celery_conf := celery_conf w; celery_Task := celery_Task w;
     ext_calls := l; calls := calls w |}.

Definition set_calls (l : list Func) (w : World) : World :=
  {| environ := environ w; profiles := profiles w;
     api_modules := api_modules w; ext_raises := ext_raises w;
     dirs := dirs w; app := app w; app_ctx_stack := app_ctx_stack w;
     celery_conf := celery_conf w; celery_Task := celery_Task w;
     ext_calls := ext_calls w; calls := l |}.

(** ** Computations over the world *)

Definition M (A : Type) : Type := World -> result A * World.

Definition ret {A} (a : A) : M A := fun w => (Ok a, w).
Definition raise {A} (e : Exn) : M A := fun w => (Raise e, w).
Definition bind {A B} (m : M A) (k : A -> M B) : M B :=
  fun w =>
    match m w with
    | (Ok a, w') => k a w'
    | (Raise e, w') => (Raise e, w')
    end.

#[global] Instance M_ret : MRet M := @ret.
#[global] Instance M_bind : MBind M := fun A B k m => bind m k.

Definition result_bind {A B} (r : result A) (k : A -> result B) : result B :=
  match r with Ok a => k a | Raise e => Raise e end.

#[global] Instance result_ret : MRet result := @Ok.
#[global] Instance result_mbind : MBind result := fun A B k r => result_bind r k.

Definition lift {A} (r : result A) : M A := fun w => (r, w).
Definition gets {A} (f : World -> A) : M A := fun w => (Ok (f w), w).
Definition modify (f : World -> World) : M unit := fun w => (Ok tt, f w).
Definition modify_app (f : Flask -> Flask) : M unit :=
  modify (fun w => set_app (f (app w)) w).

(** [for x in l: body(x)] *)
Fixpoint for_each {A} (l : list A) (body : A -> M unit) : M unit :=
  match l with
  | [] => ret tt
  | x :: l' => body x ;; for_each l' body
  end.

(** A call to a collaborator: it is recorded, and raises when the process's
    [ext_raises] says so. *)
Definition ext (c : ExtCall) : M unit :=
  fun w =>
    let w' := set_ext_calls (ext_calls w ++ [c]) w in
    match ext_raises w c with
    | Some e => (Raise e, w')
    | None => (Ok tt, w')
    end.

(** [os.environ.get(k, d)] *)
Definition environ_get (k d : string) : M string :=
  gets (fun w => default d (environ w !! k)).

(** [config[k]] on the table of [fastapi.config] *)
Definition profile_getitem (k : string) : M (gmap string PyVal) :=
  fun w =>
    match profiles w !! k with
    | Some obj => (Ok obj, w)
    | None => (Raise (KeyError k), w)
    end.

(** [app.config.from_object(obj)]: every upper-case attribute of [obj] is
    copied into the configuration, over what was there. *)
Definition from_object (obj : gmap string PyVal) : M unit :=
  modify_app (fun a =>
    set_config (filter (fun kv => isupper kv.1 = true) obj ∪ config a) a).

(** [app.config[k]] and [app.config.get(k, d)] *)
Definition config_getitem (k : string) : M PyVal :=
  fun w =>
    match config (app w) !! k with
    | Some v => (Ok v, w)
    | None => (Raise (KeyError k), w)
    end.

Definition config_get (k : string) (d : PyVal) : M PyVal :=
  gets (fun w => default d (config (app w) !! k)).

(** The world once [app.logger] has been handed one more record. *)
Definition log_appended (level : Z) (msg : string) (w : World) : World :=
  set_app (set_logger_records
             (logger_records (app w)
              ++ [{| levelno := level; message := msg |}]) (app w)) w.

(** [app.logger.addHandler(h)] and [app.logger.log(level, msg)] *)
Definition addHandler (h : LogHandler) : M unit :=
  modify_app (fun a => set_logger_handlers (logger_handlers a ++ [h]) a).

Definition logger_log (level : Z) (msg : string) : M unit :=
  modify (log_appended level msg).

Definition logger_info : string -> M unit := logger_log logging_INFO.
Definition logger_debug : string -> M unit := logger_log logging_DEBUG.

(** [os.path.isdir(p)] and [os.mkdir(p)] *)
Definition isdir (p : string) : M bool :=
  gets (fun w => bool_decide (p ∈ dirs w)).

Definition mkdir (p : string) : M unit :=
  ext (X_mkdir p) ;;
  modify (fun w => set_dirs ({[p]} ∪ dirs w) w).

(** ** The module's functions *)

(** Lines 35-37. *)
Definition init_config : M unit :=
  run_mode ← environ_get "FASTAPI_MODE" "dev";
  obj ← profile_getitem run_mode;
  from_object obj.

Definition LEVELS : list (string * Z) :=
  [("debug", logging_DEBUG); ("info", logging_INFO);
   ("warning", logging_WARNING); ("error", logging_ERROR);
   ("critical", logging_CRITICAL)].

(** [v.lower()]: only a [str] has the method. *)
Definition py_lower (v : PyVal) : result string :=
  match v with
  | VStr s => Ok (lower s)
  | _ => Raise (AttributeError "lower")
  end.

Definition log_format : string :=
  "%(asctime)-10s %(levelname)s %(filename)s %(lineno)d %(process)d %(message)s".

(** Lines 40-68. *)
Definition init_logger : M unit :=
  p ← config_getitem "LOG_PATH";
  log_dir ← lift (fspath p);
  p' ← config_getitem "LOG_PATH";
  f ← config_getitem "LOG_FILENAME";
  log_file ← lift (a ← fspath p'; b ← fspath f; Ok (path_join a b));
  there ← isdir log_dir;
  (if negb there then mkdir log_dir else ret tt) ;;
  lv ← config_getitem "LOG_LEVEL";
  name ← lift (py_lower lv);
  let log_level := default (VStr "info") (VInt <$> assoc name LEVELS) in
  ext (X_open_log log_file) ;;
  rotate_level ← lift (checkLevel log_level);
  stream_level ← lift (checkLevel log_level);
  let rotate_handler :=
    {| h_class := TimedRotatingFileHandler log_file "D" 1 30;
       h_suffix := Some "%Y%m%d.log";
       h_level := rotate_level;
       h_formatter := Some log_format |} in
  let stream_handler :=
    {| h_class := StreamHandler;
       h_suffix := None;
       h_level := stream_level;
       h_formatter := Some log_format |} in
  addHandler stream_handler ;;
  addHandler rotate_handler ;;
  logger_info "初始化日志成功".

(** *** Statement instrumentation (lines 71-90) *)

(** The execution context SQLAlchemy hands to both listeners.  The attribute
    [query_start_ts] exists once a listener has assigned it. *)
Record ExecContext := { query_start_ts : option Z }.

(** The shapes of bound parameters: a [dict], a [tuple], or the [list] of
    parameter sets of an [executemany]. *)
Inductive Parameters :=
| PDict (items : list (string * PyVal))
| PTuple (items : list PyVal)
| PList (rows : list (list (string * PyVal) + list PyVal)).

(** Connections and cursors are passed through and never looked at. *)
Definition Handle := nat.

(** Both listeners read the clock as [int(time.time() * 1000)]; [now] is that
    reading, in whole milliseconds. *)
Definition before_cursor_execute (now : Z) (conn cursor : Handle)
    (statement : string) (parameters : Parameters) (context : ExecContext)
    (exceutemany : bool) : ExecContext :=
  {| query_start_ts := Some now |}.

(** [context.query_start_ts] *)
Definition get_query_start_ts (context : ExecContext) : result Z :=
  match query_start_ts context with
  | Some ts => Ok ts
  | None =>
      Raise (AttributeError "object has no attribute 'query_start_ts'")
  end.

(** The [for name, val in parameters.items()] loop. *)
Definition format_items (items : list (string * PyVal)) : string :=
  fold_left (fun (str_params : string) '(name, val) =>
               (str_params ++ (name ++ ":" ++ py_str val ++ ", "))%string)
            items "".

Definition render_parameters (parameters : Parameters) : string :=
  match parameters with
  | PDict items => format_items items
  | PTuple items => String.concat ", " (map py_str items)
  | PList _ => ""
  end.

Definition sql_log_line (cost : Z) (str_statement str_params : string)
    : string :=
  "[cost: " ++ pretty cost ++ "ms]sql: " ++ str_statement
  ++ ", params: " ++ str_params.

Definition after_cursor_execute (now : Z) (conn cursor : Handle)
    (statement : string) (parameters : Parameters) (context : ExecContext)
    (exceutemany : bool) : M unit :=
  start ← lift (get_query_start_ts context);
  let cost := (now - start)%Z in
  let str_params := render_parameters parameters in
  let str_statement := replace newline space statement in
  let sql_log := sql_log_line cost str_statement str_params in
  logger_debug sql_log.

(** *** Persistence and Redis (lines 93-99) *)

Definition init_db : M unit :=
  ext X_db_init_app ;;
  logger_info "初始化db成功".

Definition init_redis : M unit :=
  ext X_init_redis_client ;;
  logger_info "初始化Redis成功".

(** *** Blueprint discovery (lines 102-107) *)

Definition bind_rules (bp : Blueprint) : list BoundRule :=
  map (fun re : string * string =>
         {| rule_prefix := url_prefix bp;
            rule_path := re.1;
            rule_endpoint := bp_name bp ++ "." ++ re.2 |})
      (bp_rules bp).

(** The application once [bp] is filed under its name and its rules are
    bound. *)
Definition bind_blueprint (a : Flask) (bp : Blueprint) : Flask :=
  set_routes (<[bp_name bp := bp]> (blueprints a))
             (url_map a ++ bind_rules bp) a.

(** [app.register_blueprint(bp)] of Flask: blueprints are kept by name; a
    different blueprint under a name already taken is refused by an
    assertion, the same blueprint again has its rules bound once more.  The
    URL prefix plays no part in the check. *)
Definition register_blueprint (bp : Blueprint) : M unit :=
  fun w =>
    let a := app w in
    match blueprints a !! bp_name bp with
    | Some old =>
        if decide (bp_id old = bp_id bp) then
          (Ok tt, set_app (set_routes (blueprints a)
                                      (url_map a ++ bind_rules bp) a) w)
        else
          (Raise (AssertionError "A name collision occurred between blueprints"),
           w)
    | None => (Ok tt, set_app (bind_blueprint a bp) w)
    end.

(** One turn of the loop: import the module, register its [bp] if it has
    one. *)
Definition register_module (m : string * result PyModule) : M unit :=
  module ← lift m.2;
  match mod_bp module with
  | Some bp => register_blueprint bp
  | None => ret tt
  end.

Definition register_blueprints : M unit :=
  ext (X_find_modules "fastapi.api") ;;
  modules ← gets api_modules;
  for_each modules register_module.

(** The blueprints of the modules that have one, in discovery order. *)
Definition discovered_blueprints (ms : list (string * result PyModule))
    : list Blueprint :=
  omap (fun m => match m.2 with Ok md => mod_bp md | Raise _ => None end) ms.

(** [import_string] returned the module. *)
Definition imported (m : string * result PyModule) : Prop :=
  is_ok m.2 = true.

(** *** Error handlers and hooks (lines 110-118) *)

(** The codes of [werkzeug.exceptions.default_exceptions]. *)
Definition default_exceptions : list Z :=
  [400; 401; 403; 404; 405; 406; 408; 409; 410; 411; 412; 413; 414; 415;
   416; 417; 418; 422; 423; 428; 429; 431; 451; 500; 501; 502; 503; 504;
   505]%Z.

Inductive CodeOrException :=
| ByCode (code : Z)
| ByClass (cls : ExcClass).

(** The HTTP status code an exception class carries, if it is an
    [HTTPException]. *)
Definition class_code (cls : ExcClass) : option Z :=
  match cls with
  | C_HTTP c => Some c
  | _ => None
  end.

(** [Flask._get_exc_class_and_code] *)
Definition get_exc_class_and_code (k : CodeOrException)
    : result (ExcClass * option Z) :=
  match k with
  | ByCode c =>
      if bool_decide (c ∈ default_exceptions) then Ok (C_HTTP c, Some c)
      else Raise (KeyError (pretty c))
  | ByClass cls => Ok (cls, class_code cls)
  end.

(** [app.register_error_handler(code_or_exception, f)]: the handler is filed
    under the class's code and the class; a later registration under the
    same key is found first. *)
Definition register_error_handler (k : CodeOrException) (f : ErrorHandler)
    : M unit :=
  cc ← lift (get_exc_class_and_code k);
  modify_app (fun a =>
    set_error_handler_spec ((cc.2, cc.1, f) :: error_handler_spec a) a).

Definition init_error_handlers : M unit :=
  register_error_handler (ByCode 404) error_404_handler ;;
  register_error_handler (ByCode 429) error_429_handler ;;
  register_error_handler (ByClass C_APIError) error_handler.

Definition before_request (f : Hook) : M unit :=
  modify_app (fun a =>
    set_request_funcs (before_request_funcs a ++ [f])
                      (after_request_funcs a) a).

Definition after_request (f : Hook) : M unit :=
  modify_app (fun a =>
    set_request_funcs (before_request_funcs a)
                      (after_request_funcs a ++ [f]) a).

Definition init_hooks : M unit :=
  before_request before_request_handler ;;
  after_request after_request_handler.

(** *** Sentry (lines 121-127) *)

Definition init_sentry : M unit :=
  enable_sentry ← config_get "ENABLE_SENTRY" (VBool false);
  (if negb (py_bool enable_sentry) then ret tt else ret tt) ;;
  dsn ← config_get "SENTRY_DSN" VNone;
  ext (X_Sentry dsn) ;;
  logger_info "初始化Sentry成功".

(** *** Celery (lines 130-142) *)

Definition import_name : string := "fastapi.fastapi".

(** The context [app.app_context()] creates. *)
Definition the_context : AppContext := {| ctx_app := import_name |}.

(** [app.app_context()] entered and left: Flask pushes the context on
    [_app_ctx_stack] and pops it again; popping asserts that a context was
    there. *)
Definition app_context_push : M unit :=
  modify (fun w =>
    set_app_ctx_stack (the_context :: app_ctx_stack w) w).

Definition app_context_pop : M unit :=
  fun w =>
    match app_ctx_stack w with
    | [] => (Raise (AssertionError "Popped wrong app context."), w)
    | _ :: s => (Ok tt, set_app_ctx_stack s w)
    end.

(** [with app.app_context(): body].  The context manager's exit runs whether
    [body] returned or raised and does not swallow the exception. *)
Definition with_app_context {A} (body : M A) : M A :=
  fun w =>
    match app_context_push w with
    | (Raise e, w1) => (Raise e, w1)
    | (Ok _, w1) =>
        let (r, w2) := body w1 in
        match app_context_pop w2 with
        | (Ok _, w3) => (r, w3)
        | (Raise e, w3) => (Raise e, w3)
        end
    end.

(** [cls.__call__(self, *args, **kwargs)] for a task of class [cls] whose
    [run] method is [run]: Celery's [Task.__call__] runs it, and
    [ContextTask.__call__] wraps the call of its base class in an
    application context. *)
Fixpoint task_call {A} (cls : TaskClass) (run : M A) : M A :=
  match cls with
  | Task => run
  | ContextTask TaskBase => with_app_context (task_call TaskBase run)
  end.

(** How many [ContextTask] layers a task class has. *)
Fixpoint nesting (cls : TaskClass) : nat :=
  match cls with
  | Task => 0
  | ContextTask TaskBase => S (nesting TaskBase)
  end.

Definition init_celery : M unit :=
  cfg ← gets (fun w => config (app w));
  modify (fun w => set_celery (cfg ∪ celery_conf w) (celery_Task w) w) ;;
  TaskBase ← gets celery_Task;
  modify (fun w => set_celery (celery_conf w) (ContextTask TaskBase) w) ;;
  logger_info "初始化celery成功".

(** [flask.current_app], the proxy a unit of work reads the ambient
    application through. *)
Definition current_app : M Flask :=
  fun w =>
    match app_ctx_stack w with
    | [] => (Raise (RuntimeError "Working outside of application context."), w)
    | _ :: _ => (Ok (app w), w)
    end.

(** *** Limiter, cache, signal handlers (lines 146-156) *)

Definition init_limiter : M unit := ext X_limiter_init_app.

Definition init_cache : M unit := ext X_cache_init_app.

Definition register_signal_handlers : M unit := ext X_signals_register.

(** *** The bootstrap (lines 159-172) *)

(** A call of one of the module's functions from [init_app]: the function is
    entered, which the history [calls] keeps, and its body runs. *)
Definition call (f : Func) (body : M unit) : M unit :=
  fun w => body (set_calls (calls w ++ [f]) w).

Definition init_app : M unit :=
  call f_init_config init_config ;;
  call f_init_logger init_logger ;;
  call f_init_error_handlers init_error_handlers ;;
  call f_init_hooks init_hooks ;;
  call f_init_db init_db ;;
  call f_init_redis init_redis ;;
  call f_init_sentry init_sentry ;;
  call f_init_celery init_celery ;;
  call f_init_limiter init_limiter ;;
  call f_init_cache init_cache ;;
  call f_register_blueprints register_blueprints ;;
  call f_register_signal_handlers register_signal_handlers.

(** ** Flask's answer to a failure raised while a request is served

    The module only fills the handler table; what happens to a failure is
    decided by Flask's [handle_user_exception] and [handle_exception], which
    read that table. *)

(** The classes a handler can be keyed on that an instance of [cls] belongs
    to, most specific first. *)
Definition mro (cls : ExcClass) : list ExcClass :=
  match cls with
  | C_APIError_sub _ => [cls; C_APIError]
  | _ => [cls]
  end.

Definition lookup_handler (spec : list (option Z * ExcClass * ErrorHandler))
    (code : option Z) (cls : ExcClass) : option ErrorHandler :=
  snd <$> List.find (fun e => bool_decide (e.1 = (code, cls))) spec.

Fixpoint first_some {A B} (f : A -> option B) (l : list A) : option B :=
  match l with
  | [] => None
  | x :: l' => match f x with Some y => Some y | None => first_some f l' end
  end.

(** [Flask._find_error_handler]: handlers filed under the class's code come
    before those filed under no code, and within each the classes are tried
    in resolution order.  Only the application's own table is read; this
    module registers no handler on a blueprint. *)
Definition find_error_handler (a : Flask) (cls : ExcClass)
    : option ErrorHandler :=
  first_some
    (fun code => first_some (lookup_handler (error_handler_spec a) code)
                            (mro cls))
    [class_code cls; None].

(** [app.propagate_exceptions] *)
Definition propagate_exceptions (a : Flask) : bool :=
  match config a !! "PROPAGATE_EXCEPTIONS" with
  | Some VNone | None =>
      py_bool (default VNone (config a !! "TESTING"))
      || py_bool (default VNone (config a !! "DEBUG"))
  | Some rv => py_bool rv
  end.

(** What the client gets: the result of a registered handler applied to the
    failure, or the response werkzeug renders for an HTTP status on its
    own. *)
Inductive Response :=
| HandlerResponse (h : ErrorHandler) (e : ExcClass)
| DefaultResponse (status : Z).

(** What becomes of a failure: a response, or the exception leaves the
    application for the server (or the debugger) above it. *)
Inductive Outcome :=
| Responded (r : Response)
| Propagated (e : ExcClass).

Definition handle_user_exception (a : Flask) (e : ExcClass) : Outcome :=
  match find_error_handler a e, class_code e with
  | Some h, _ => Responded (HandlerResponse h e)
  | None, Some code => Responded (DefaultResponse code)
  | None, None => Propagated e
  end.

Definition handle_exception (a : Flask) (e : ExcClass) : Outcome :=
  if propagate_exceptions a then Propagated e
  else
    match find_error_handler a (C_HTTP 500) with
    | Some h => Responded (HandlerResponse h e)
    | None => Responded (DefaultResponse 500)
    end.

(** A failure of class [e] raised by a view, through both layers. *)
Definition handle_failure (a : Flask) (e : ExcClass) : Outcome :=
  match handle_user_exception a e with
  | Responded r => Responded r
  | Propagated e' => handle_exception a e'
  end.


(** ** What a unit of work and a request see of the configuration *)

(** [current_app.config.get(k)] *)
Definition read_config (k : string) : M (option PyVal) :=
  a ← current_app;
  ret (config a !! k).

(** The value a view reads while a request is served: Flask pushes an
    application context around the request. *)
Definition observed_by_request (k : string) : M (option PyVal) :=
  with_app_context (read_config k).

(** The value a task of the installed class [celery.Task] reads when a
    worker calls it. *)
Definition observed_by_task (k : string) : M (option PyVal) :=
  fun w => task_call (celery_Task w) (read_config k) w.

(** A unit of work leaves the context stack as it found it. *)
Definition stack_neutral {A} (run : M A) : Prop :=
  forall w, app_ctx_stack (snd (run w)) = app_ctx_stack w.

(** ** Orderings of the bootstrap *)

Definition bootstrap_order : list Func :=
  [f_init_config; f_init_logger; f_init_error_handlers; f_init_hooks;
   f_init_db; f_init_redis; f_init_sentry; f_init_celery; f_init_limiter;
   f_init_cache; f_register_blueprints; f_register_signal_handlers].


(** ** A sample deployment *)

Definition DevConfig : gmap string PyVal :=
  list_to_map
    [("DEBUG", VBool true); ("LOG_PATH", VStr "logs");
     ("LOG_FILENAME", VStr "fastapi.log"); ("LOG_LEVEL", VStr "DEBUG");
     ("PAGE_SIZE", VInt 20); ("ENABLE_SENTRY", VBool false);
     ("__module__", VStr "fastapi.config")].

Definition ProdConfig : gmap string PyVal :=
  list_to_map
    [("DEBUG", VBool false); ("LOG_PATH", VStr "/var/log/fastapi");
     ("LOG_FILENAME", VStr "fastapi.log"); ("LOG_LEVEL", VStr "info");
     ("PAGE_SIZE", VInt 50); ("ENABLE_SENTRY", VBool true);
     ("SENTRY_DSN", VStr "https://key@sentry.example/1");
     ("__module__", VStr "fastapi.config")].

Definition sample_profiles : gmap string (gmap string PyVal) :=
  list_to_map [("dev", DevConfig); ("prod", ProdConfig)].

Definition users_bp : Blueprint :=
  {| bp_id := 1; bp_name := "users"; url_prefix := Some "/a";
     bp_rules := [("/list", "index")] |}.

Definition orders_bp : Blueprint :=
  {| bp_id := 2; bp_name := "orders"; url_prefix := Some "/a";
     bp_rules := [("/recent", "recent")] |}.

Definition sample_modules : list (string * result PyModule) :=
  [("fastapi.api.users", Ok {| mod_bp := Some users_bp |});
   ("fastapi.api.schemas", Ok {| mod_bp := None |});
   ("fastapi.api.orders", Ok {| mod_bp := Some orders_bp |})].

Definition fresh_app : Flask :=
  {| config := ∅; logger_handlers := []; logger_records := [];
     error_handler_spec := []; before_request_funcs := [];
     after_request_funcs := []; blueprints := ∅; url_map := [] |}.

(** The process right after the module-level objects are created, in the
    environment [env], with every collaborator answering. *)
Definition sample_process (env : gmap string string) : World :=
  {| environ := env; profiles := sample_profiles;
     api_modules := sample_modules; ext_raises := fun _ => None;
     dirs := ∅; app := fresh_app; app_ctx_stack := [];
     celery_conf := ∅; celery_Task := Task;
     ext_calls := []; calls := [] |}.

(** ** Predicates on computations *)

(** [m] leaves the part [p] of the world alone, whatever its outcome. *)
Definition preserves {A B} (p : World -> B) (m : M A) : Prop :=
  forall w, p (snd (m w)) = p w.

(** [m] enters the functions of [l] in order, the first in any case, and
    stops at the first that raises. *)
Definition enters (m : M unit) (l : list Func) : Prop :=
  forall w, exists entered,
    calls (snd (m w)) = calls w ++ entered
    /\ entered `prefix_of` l
    /\ head entered = head l
    /\ (fst (m w) = Ok tt -> entered = l).


(** ** Vocabulary for the properties of the whole bootstrap *)

(** The discriminator [init_config] reads. *)
Definition run_mode (w : World) : string :=
  default "dev" (environ w !! "FASTAPI_MODE").

(** The two handlers [init_logger] builds. *)
Definition stream_handler (level : Z) : LogHandler :=
  {| h_class := StreamHandler; h_suffix := None; h_level := level;
     h_formatter := Some log_format |}.

Definition rotate_handler (log_file : string) (level : Z) : LogHandler :=
  {| h_class := TimedRotatingFileHandler log_file "D" 1 30;
     h_suffix := Some "%Y%m%d.log"; h_level := level;
     h_formatter := Some log_format |}.

(** When [m] returns, the part [p] of the world has changed as [R] says. *)
Definition effect {A B} (p : World -> B) (R : B -> B -> Prop) (m : M A)
    : Prop :=
  forall w a w', m w = (Ok a, w') -> R (p w) (p w').

Definition and_then {B} (R1 R2 : B -> B -> Prop) : B -> B -> Prop :=
  fun x z => exists y, R1 x y /\ R2 y z.

Definition appends {X} (l : list X) : list X -> list X -> Prop :=
  fun x y => y = x ++ l.

Definition records_of (w : World) : list LogRecord := logger_records (app w).

Definition info (msg : string) : LogRecord :=
  {| levelno := logging_INFO; message := msg |}.

(** The success messages of the bootstrap, in the order of its steps. *)
Definition bootstrap_messages : list LogRecord :=
  [info "初始化日志成功"; info "初始化db成功"; info "初始化Redis成功";
   info "初始化Sentry成功"; info "初始化celery成功"].


(** The collaborator a call goes to. *)
Inductive Collaborator :=
| FileSystem
| Database
| Redis
| SentryClient
| Limiter
| Cache
| ModuleFinder
| SignalHandlers.

Definition collaborator (c : ExtCall) : Collaborator :=
  match c with
  | X_mkdir _ | X_open_log _ => FileSystem
  | X_db_init_app => Database
  | X_init_redis_client => Redis
  | X_Sentry _ => SentryClient
  | X_limiter_init_app => Limiter
  | X_cache_init_app => Cache
  | X_find_modules _ => ModuleFinder
  | X_signals_register => SignalHandlers
  end.

Definition collaborators_called (w : World) : list Collaborator :=
  collaborator <$> ext_calls w.

Definition extensions_in_order : list Collaborator :=
  [Database; Redis; SentryClient; Limiter; Cache; ModuleFinder;
   SignalHandlers].


(** The collaborator call [c] returns in this process. *)
Definition answers (w : World) (c : ExtCall) : Prop := ext_raises w c = None.

(** The collaborator calls [l] made by a run with outcome [r]: they all
    answered, or all but the last did and the run ended with what the last
    one raised. *)
Definition none_swallowed {A} (w : World) (r : result A) (l : list ExtCall)
    : Prop :=
  Forall (answers w) l
  \/ exists l0 c e,
       l = l0 ++ [c] /\ Forall (answers w) l0
       /\ ext_raises w c = Some e /\ r = Raise e.

(** [m] does not touch the collaborators' behaviour, and swallows none of
    their exceptions. *)
Definition failfast {A} (m : M A) : Prop :=
  forall w,
    ext_raises (snd (m w)) = ext_raises w
    /\ exists l, ext_calls (snd (m w)) = ext_calls w ++ l
                 /\ none_swallowed w (fst (m w)) l.

(** ** More sample processes *)

(** The sample process with [app.config] already holding [cfg]. *)
Definition configured (cfg : gmap string PyVal) : World :=
  set_app (set_config cfg fresh_app) (sample_process ∅).

Definition logging_config (level : option string) : gmap string PyVal :=
  list_to_map
    ([("LOG_PATH", VStr "logs"); ("LOG_FILENAME", VStr "fastapi.log")]
     ++ match level with
        | Some lv => [("LOG_LEVEL", VStr lv)]
        | None => []
        end).

(** A deployment one of whose modules does not import. *)
Definition broken_modules : list (string * result PyModule) :=
  [("fastapi.api.users", Ok {| mod_bp := Some users_bp |});
   ("fastapi.api.reports", Raise (ImportError "fastapi.api.reports"));
   ("fastapi.api.orders", Ok {| mod_bp := Some orders_bp |})].

Definition broken_process : World :=
  {| environ := ∅; profiles := sample_profiles;
     api_modules := broken_modules; ext_raises := fun _ => None;
     dirs := ∅; app := fresh_app; app_ctx_stack := [];
     celery_conf := ∅; celery_Task := Task;
     ext_calls := []; calls := [] |}.

(** A deployment whose Redis server does not answer. *)
Definition redis_down (c : ExtCall) : option Exn :=
  match c with
  | X_init_redis_client => Some (OSError "Connection refused")
  | _ => None
  end.

Definition redis_down_process : World :=
  {| environ := ∅; profiles := sample_profiles;
     api_modules := sample_modules; ext_raises := redis_down;
     dirs := ∅; app := fresh_app; app_ctx_stack := [];
     celery_conf := ∅; celery_Task := Task;
     ext_calls := []; calls := [] |}.

(** * Properties *)

(** ** Reasoning about computations *)

Lemma bind_unfold {A B} (m : M A) (k : A -> M B) (w : World) :
  (m ≫= k) w =
  match m w with
  | (Ok a, w') => k a w'
  | (Raise e, w') => (Raise e, w')
  end.
Proof. reflexivity. Qed.

Lemma set_app_app (w : World) : set_app (app w) w = w.
Proof. by destruct w. Qed.

Lemma set_app_ctx_stack_id (w : World) :
  set_app_ctx_stack (app_ctx_stack w) w = w.
Proof. by destruct w. Qed.

Lemma set_app_ctx_stack_twice (s s' : list AppContext) (w : World) :
  set_app_ctx_stack s (set_app_ctx_stack s' w) = set_app_ctx_stack s w.
Proof. reflexivity. Qed.

Lemma with_app_context_eq {A} (body : M A) (w : World) :
  with_app_context body w
  = let w2 := body (set_app_ctx_stack (the_context :: app_ctx_stack w) w) in
    match app_ctx_stack (snd w2) with
    | [] => (Raise (AssertionError "Popped wrong app context."), snd w2)
    | _ :: s => (fst w2, set_app_ctx_stack s (snd w2))
    end.
Proof.
  unfold with_app_context, app_context_push, app_context_pop, modify.
  simpl. destruct (body _) as [r w2]. simpl.
  by destruct (app_ctx_stack w2).
Qed.

Section Preserves.
Context {B : Type} (p : World -> B).

Lemma preserves_ret {A} (a : A) : preserves p (ret a).
Proof. by intros w. Qed.

Lemma preserves_raise {A} (e : Exn) : preserves p (@raise A e).
Proof. by intros w. Qed.

Lemma preserves_lift {A} (r : result A) : preserves p (lift r).
Proof. by intros w. Qed.

Lemma preserves_gets {A} (f : World -> A) : preserves p (gets f).
Proof. by intros w. Qed.

Lemma preserves_bind {A C} (m : M A) (k : A -> M C) :
  preserves p m -> (forall a, preserves p (k a)) -> preserves p (m ≫= k).
Proof.
  intros Hm Hk w. rewrite bind_unfold.
  specialize (Hm w). destruct (m w) as [[a|e] w']; simpl in *.
  - by rewrite Hk.
  - done.
Qed.

Lemma preserves_for_each {A} (l : list A) (body : A -> M unit) :
  (forall x, preserves p (body x)) -> preserves p (for_each l body).
Proof.
  intros Hbody. induction l as [|x l IH]; simpl.
  - apply preserves_ret.
  - apply preserves_bind; auto.
Qed.

Lemma preserves_call (f : Func) (body : M unit) :
  (forall l w, p (set_calls l w) = p w) ->
  preserves p body -> preserves p (call f body).
Proof. intros Hp Hb w. unfold call. by rewrite Hb. Qed.

(** What follows a step cannot undo what the step left in [p]. *)
Lemma seq_preserved {C} (m : M unit) (k : M C) (w : World) :
  preserves p k -> p (snd ((m ;; k) w)) = p (snd (m w)).
Proof.
  intros Hk. rewrite bind_unfold.
  destruct (m w) as [[[]|e] w1]; simpl; auto.
Qed.
End Preserves.

Lemma seq_ok {C} (m : M unit) (k : M C) (w : World) (c : C) :
  fst ((m ;; k) w) = Ok c -> fst (m w) = Ok tt.
Proof. rewrite bind_unfold. by destruct (m w) as [[[]|e] w1]. Qed.

Lemma seq_ok_r {C} (m : M unit) (k : M C) (w : World) (c : C) :
  fst ((m ;; k) w) = Ok c -> (m ;; k) w = k (snd (m w)).
Proof. rewrite bind_unfold. by destruct (m w) as [[[]|e] w1]. Qed.

(** Proves [preserves p m] for a computation built from the primitives. *)
Ltac preserves_step :=
  first
    [ apply preserves_bind; [| intros ?]
    | apply preserves_ret
    | apply preserves_raise
    | apply preserves_lift
    | apply preserves_gets
    | apply preserves_for_each; intros ?
    | match goal with
      | |- preserves _ (if ?b then _ else _) => destruct b
      | |- preserves _ (match ?x with _ => _ end) => destruct x
      end ].

Ltac preserves_prim :=
  let w := fresh "w" in
  intros w;
  unfold ext, config_getitem, profile_getitem, register_blueprint,
    current_app, modify_app, modify, gets, lift;
  repeat case_match; first [reflexivity | simpl; congruence].

Ltac solve_preserves :=
  repeat preserves_step; try preserves_prim.

Ltac unfold_module :=
  unfold init_config, init_logger, init_db, init_redis, register_blueprints,
    register_module, init_error_handlers, register_error_handler, init_hooks,
    before_request, after_request, init_sentry, init_celery, init_limiter,
    init_cache, register_signal_handlers, environ_get, from_object,
    config_get, isdir, mkdir, addHandler, logger_info, logger_debug,
    logger_log.

Ltac split_Forall H :=
  repeat match type of H with
         | Forall _ (_ :: _) =>
             let Hx := fresh "Hb" in
             apply Forall_cons in H as [Hx H]
         end.

(** Nothing but [call] writes the history of calls. *)
Lemma bodies_preserve_calls :
  Forall (preserves calls)
    [init_config; init_logger; init_error_handlers; init_hooks; init_db;
     init_redis; init_sentry; init_celery; init_limiter; init_cache;
     register_blueprints; register_signal_handlers].
Proof. repeat constructor; unfold_module; solve_preserves. Qed.

(** Only [init_config] writes [app.config]. *)
Lemma bodies_preserve_config :
  Forall (preserves (fun w => config (app w)))
    [init_logger; init_error_handlers; init_hooks; init_db;
     init_redis; init_sentry; init_celery; init_limiter; init_cache;
     register_blueprints; register_signal_handlers].
Proof. repeat constructor; unfold_module; solve_preserves. Qed.

(** Only [init_celery] writes [celery.Task]. *)
Lemma bodies_preserve_celery_Task :
  Forall (preserves celery_Task)
    [init_config; init_logger; init_error_handlers; init_hooks; init_db;
     init_redis; init_sentry; init_limiter; init_cache;
     register_blueprints; register_signal_handlers].
Proof. repeat constructor; unfold_module; solve_preserves. Qed.

(** ** The order of the bootstrap *)

Lemma enters_call (f : Func) (body : M unit) :
  preserves calls body -> enters (call f body) [f].
Proof. intros Hb w. exists [f]. unfold call. rewrite Hb. simpl. done. Qed.

Lemma enters_seq (m k : M unit) (f : Func) (l1 l2 : list Func) :
  enters m (f :: l1) -> enters k l2 -> enters (m ;; k) ((f :: l1) ++ l2).
Proof.
  intros Hm Hk w. rewrite bind_unfold.
  destruct (Hm w) as (e1 & Hc1 & Hp1 & Hh1 & Hok1).
  destruct (m w) as [[[]|e] w1]; simpl in *.
  - destruct (Hk w1) as (e2 & Hc2 & Hp2 & Hh2 & Hok2).
    rewrite (Hok1 eq_refl) in Hc1.
    exists ((f :: l1) ++ e2). split_and!.
    + by rewrite Hc2, Hc1, (assoc_L (++)).
    + by apply (prefix_app (f :: l1) e2 l2).
    + done.
    + intros Hok. by rewrite (Hok2 Hok).
  - exists e1. split_and!; [done| |done|done].
    by apply (prefix_app_r _ (f :: l1) l2).
Qed.




(** ** The environment discriminator *)

(** C5.  When [FASTAPI_MODE] names a profile the configuration table does
    not have, [init_app] raises [KeyError] in [init_config], the first
    function it enters.  The process is left as it was but for the record
    that [init_config] was entered: no other function is entered, no
    collaborator is called, and the logger has no handler added and no
    record logged. *)
Theorem unknown_profile_aborts_bootstrap (w : World) (mode : string) :
  environ w !! "FASTAPI_MODE" = Some mode ->
  profiles w !! mode = None ->
  init_app w
  = (Raise (KeyError mode), set_calls (calls w ++ [f_init_config]) w).
Proof.
  intros Henv Hprof. unfold init_app. rewrite bind_unfold.
  unfold call at 1. unfold init_config. rewrite bind_unfold.
  unfold environ_get, gets. simpl. rewrite Henv. simpl.
  rewrite bind_unfold. unfold profile_getitem. simpl. by rewrite Hprof.
Qed.

Lemma unknown_profile_witness :
  init_app (sample_process {["FASTAPI_MODE" := "bogus"]})
  = (Raise (KeyError "bogus"),
     set_calls [f_init_config]
       (sample_process {["FASTAPI_MODE" := "bogus"]})).
Proof.
  apply (unknown_profile_aborts_bootstrap
           (sample_process {["FASTAPI_MODE" := "bogus"]}) "bogus").
  - reflexivity.
  - reflexivity.
Defined.

Lemma init_config_default (w : World) (obj : gmap string PyVal) :
  environ w !! "FASTAPI_MODE" = None ->
  profiles w !! "dev" = Some obj ->
  init_config w
  = (Ok tt,
     set_app (set_config (filter (fun kv => isupper kv.1 = true) obj
                          ∪ config (app w)) (app w)) w).
Proof.
  intros Henv Hprof. unfold init_config. rewrite bind_unfold.
  unfold environ_get, gets. simpl. rewrite Henv. simpl.
  rewrite bind_unfold. unfold profile_getitem. simpl. by rewrite Hprof.
Qed.

(** C10.  When [FASTAPI_MODE] is not in the environment, [init_config]
    loads the profile filed under ["dev"]: it returns, and [app.config] holds
    the upper-case attributes of that profile over what it held before.  The
    bootstrap goes on: [init_app] enters [init_logger]. *)
Theorem missing_mode_selects_dev (w : World) (obj : gmap string PyVal) :
  environ w !! "FASTAPI_MODE" = None ->
  profiles w !! "dev" = Some obj ->
  init_config w
  = (Ok tt,
     set_app (set_config (filter (fun kv => isupper kv.1 = true) obj
                          ∪ config (app w)) (app w)) w)
  /\ f_init_logger ∈ calls (snd (init_app w)).
Proof.
  intros Henv Hprof. split; [by apply init_config_default|].
  pose proof bodies_preserve_calls as H. split_Forall H.
  unfold init_app. rewrite bind_unfold. unfold call at 1.
  rewrite init_config_default with (obj := obj) by done.
  match goal with
  | |- _ ∈ calls (snd (?rest _)) =>
      assert (enters rest (tail bootstrap_order)) as Hrest
  end.
  { repeat (apply (enters_seq _ _ _ []); [by apply enters_call |]).
    by apply enters_call. }
  match goal with
  | |- _ ∈ calls (snd (_ ?w1)) => destruct (Hrest w1) as (e & -> & _ & Hh & _)
  end.
  destruct e as [|f e]; simplify_eq/=. set_solver.
Qed.

Lemma missing_mode_witness :
  init_config (sample_process ∅)
  = (Ok tt,
     set_app (set_config (filter (fun kv => isupper kv.1 = true) DevConfig
                          ∪ config (app (sample_process ∅)))
                         (app (sample_process ∅))) (sample_process ∅))
  /\ f_init_logger ∈ calls (snd (init_app (sample_process ∅))).
Proof.
  apply (missing_mode_selects_dev (sample_process ∅) DevConfig).
  - reflexivity.
  - reflexivity.
Defined.

(** ** Statement instrumentation *)

Lemma replace_get (old new : ascii) (s : string) (i : nat) :
  String.get i (replace old new s)
  = (fun c => if Ascii.eqb c old then new else c) <$> String.get i s.
Proof.
  revert i. induction s as [|c s IH]; intros i; simpl; [done|].
  destruct i; [done|]. apply IH.
Qed.

Lemma replace_removes (old new : ascii) (s : string) :
  old <> new ->
  string_forallb (fun c => negb (Ascii.eqb c old)) (replace old new s) = true.
Proof.
  intros Hne. induction s as [|c s IH]; simpl; [done|].
  rewrite IH, andb_true_r.
  destruct (Ascii.eqb_spec c old) as [->|Hc].
  - destruct (Ascii.eqb_spec new old); [congruence|done].
  - destruct (Ascii.eqb_spec c old); [congruence|done].
Qed.

Lemma string_app_cons (c : ascii) (s t : string) :
  (String c s ++ t)%string = String c (s ++ t).
Proof. reflexivity. Qed.

Lemma string_app_nil_r (s : string) : (s ++ "")%string = s.
Proof.
  induction s as [|c s IH]; [done|]. rewrite string_app_cons. congruence.
Qed.

Lemma string_app_assoc (s1 s2 s3 : string) :
  (s1 ++ (s2 ++ s3))%string = ((s1 ++ s2) ++ s3)%string.
Proof.
  induction s1 as [|c s1 IH]; [done|]. rewrite !string_app_cons. congruence.
Qed.

Lemma format_items_app (items : list (string * PyVal)) (acc : string) :
  fold_left (fun (str_params : string) '(name, val) =>
               (str_params ++ (name ++ ":" ++ py_str val ++ ", "))%string)
            items acc
  = (acc ++ format_items items)%string.
Proof.
  unfold format_items. revert acc.
  induction items as [|[name val] items IH]; intros acc; simpl.
  - by rewrite string_app_nil_r.
  - rewrite IH, (IH (String.append _ _)).
    change (String.append "" ?x) with x.
    symmetry. apply string_app_assoc.
Qed.

(** Each entry of a [dict] is rendered as [name:value, ], in the order of
    the dictionary. *)
Lemma format_items_cons (name : string) (val : PyVal)
    (items : list (string * PyVal)) :
  format_items ((name, val) :: items)
  = (name ++ ":" ++ py_str val ++ ", " ++ format_items items)%string.
Proof.
  unfold format_items at 1. simpl. rewrite format_items_app.
  by rewrite <- !string_app_assoc.
Qed.

Lemma after_cursor_execute_eq (now : Z) (conn cursor : Handle)
    (statement : string) (parameters : Parameters) (context : ExecContext)
    (exceutemany : bool) (w : World) :
  after_cursor_execute now conn cursor statement parameters context
    exceutemany w
  = match query_start_ts context with
    | Some start =>
        (Ok tt,
         log_appended logging_DEBUG
           (sql_log_line (now - start) (replace newline space statement)
                         (render_parameters parameters)) w)
    | None =>
        (Raise (AttributeError "object has no attribute 'query_start_ts'"),
         w)
    end.
Proof.
  unfold after_cursor_execute. rewrite bind_unfold.
  unfold lift, get_query_start_ts. by destruct (query_start_ts context).
Qed.

(** C3, as amended.  The after-hook has no exception handling of its own.
    On a context that carries the start timestamp it returns normally and
    does nothing but hand one debug record to the logger: the connection,
    cursor, statement, parameters and context are left alone, and nothing is
    returned that could replace the statement's result.  On a context
    without [query_start_ts] it raises [AttributeError] to its caller, with
    nothing logged. *)
Theorem after_cursor_execute_outcome (now : Z) (conn cursor : Handle)
    (statement : string) (parameters : Parameters) (context : ExecContext)
    (exceutemany : bool) (w : World) :
  after_cursor_execute now conn cursor statement parameters context
    exceutemany w
  = match query_start_ts context with
    | Some start =>
        (Ok tt,
         log_appended logging_DEBUG
           (sql_log_line (now - start) (replace newline space statement)
                         (render_parameters parameters)) w)
    | None =>
        (Raise (AttributeError "object has no attribute 'query_start_ts'"),
         w)
    end.
Proof.
  unfold after_cursor_execute. rewrite bind_unfold.
  unfold lift, get_query_start_ts.
  destruct (query_start_ts context) as [start|].
  - reflexivity.
  - reflexivity.
Qed.

(** C3 as the specification states it fails: called on a context that no
    before-hook has stamped, the after-hook raises. *)
Lemma after_cursor_execute_raises :
  after_cursor_execute 1700000000123 1 2 "SELECT 1" (PTuple [])
    {| query_start_ts := None |} false (sample_process ∅)
  = (Raise (AttributeError "object has no attribute 'query_start_ts'"),
     sample_process ∅).
Proof. reflexivity. Qed.

(** C8, as amended.  For a statement run between the two hooks, with the
    clock read as [t0] by the before-hook and as [t1] by the after-hook, the
    after-hook returns and hands the logger exactly one record, at DEBUG,
    whose text is [[cost: Cms]sql: S, params: P] where
    - [C] is [t1 - t0] in whole milliseconds, which is non-negative when the
      clock did not go back between the two readings ([t0 <= t1]);
    - [S] is the statement with every newline replaced by a space: no
      newline is left and every other character stays where it was;
    - [P] renders a [dict] entry by entry as [name:value, ] and a [tuple] as
      its values joined by [, ]. *)
Theorem instrumentation_pair_logs_one_line (t0 t1 : Z) (conn cursor : Handle)
    (statement : string) (parameters : Parameters) (context : ExecContext)
    (exceutemany : bool) (w : World) :
  let context' :=
    before_cursor_execute t0 conn cursor statement parameters context
      exceutemany in
  let str_statement := replace newline space statement in
  after_cursor_execute t1 conn cursor statement parameters context'
    exceutemany w
  = (Ok tt,
     log_appended logging_DEBUG
       (sql_log_line (t1 - t0) str_statement (render_parameters parameters))
       w)
  /\ ((t0 <= t1)%Z -> (0 <= t1 - t0)%Z)
  /\ string_forallb (fun c => negb (Ascii.eqb c newline)) str_statement = true
  /\ (forall i, String.get i str_statement
               = (fun c => if Ascii.eqb c newline then space else c)
                   <$> String.get i statement)
  /\ (forall name val items,
        render_parameters (PDict ((name, val) :: items))
        = (name ++ ":" ++ py_str val ++ ", "
           ++ render_parameters (PDict items))%string)
  /\ (forall items,
        render_parameters (PTuple items)
        = String.concat ", " (py_str <$> items)).
Proof.
  intros context' str_statement. split_and!.
  - by rewrite after_cursor_execute_eq.
  - lia.
  - by apply replace_removes.
  - intros i. apply replace_get.
  - intros name val items. apply format_items_cons.
  - done.
Qed.

Lemma instrumentation_pair_witness :
  after_cursor_execute 1700000000140 1 2
    ("SELECT *" ++ String newline "FROM t WHERE a = %(a)s")
    (PDict [("a", VInt 3)])
    (before_cursor_execute 1700000000123 1 2
       ("SELECT *" ++ String newline "FROM t WHERE a = %(a)s")
       (PDict [("a", VInt 3)]) {| query_start_ts := None |} false)
    false (sample_process ∅)
  = (Ok tt,
     log_appended logging_DEBUG
       "[cost: 17ms]sql: SELECT * FROM t WHERE a = %(a)s, params: a:3, "
       (sample_process ∅)).
Proof.
  apply (proj1 (instrumentation_pair_logs_one_line 1700000000123
                  1700000000140 1 2
                  ("SELECT *" ++ String newline "FROM t WHERE a = %(a)s")
                  (PDict [("a", VInt 3)]) {| query_start_ts := None |} false
                  (sample_process ∅))).
Defined.

(** C8 as the specification states it fails: when the wall clock is set
    back by a millisecond between the two hooks, the logged cost is -1. *)
Lemma negative_cost_counterexample :
  after_cursor_execute 999 1 2 "SELECT 1" (PTuple [VInt 7; VStr "x"])
    (before_cursor_execute 1000 1 2 "SELECT 1" (PTuple [VInt 7; VStr "x"])
       {| query_start_ts := None |} false)
    false (sample_process ∅)
  = (Ok tt,
     log_appended logging_DEBUG
       "[cost: -1ms]sql: SELECT 1, params: 7, x" (sample_process ∅))
  /\ (999 - 1000 < 0)%Z.
Proof. split; [reflexivity | lia]. Qed.

(** ** Sentry *)

(** C9.  When [ENABLE_SENTRY] is false or absent, [init_sentry] still
    constructs the Sentry client, with the DSN the configuration holds
    ([None] when it holds none): the test of the flag guards nothing.  What
    follows is what follows when the flag is set: the constructor's exception
    if it raises, the success message otherwise. *)
Theorem init_sentry_disabled_still_initializes (w : World) :
  py_bool (default (VBool false) (config (app w) !! "ENABLE_SENTRY")) = false ->
  let dsn := default VNone (config (app w) !! "SENTRY_DSN") in
  let w1 := set_ext_calls (ext_calls w ++ [X_Sentry dsn]) w in
  init_sentry w
  = match ext_raises w (X_Sentry dsn) with
    | Some e => (Raise e, w1)
    | None => (Ok tt, log_appended logging_INFO "初始化Sentry成功" w1)
    end.
Proof.
  intros _ dsn w1. unfold init_sentry. rewrite bind_unfold.
  unfold config_get at 1. unfold gets at 1.
  rewrite bind_unfold.
  destruct (negb _); unfold ret; rewrite bind_unfold;
    unfold config_get, gets; rewrite bind_unfold;
    unfold ext; fold dsn; by destruct (ext_raises w (X_Sentry dsn)).
Qed.

Lemma init_sentry_disabled_witness :
  init_sentry (snd (init_config (sample_process ∅)))
  = (Ok tt,
     log_appended logging_INFO "初始化Sentry成功"
       (set_ext_calls [X_Sentry VNone]
          (snd (init_config (sample_process ∅))))).
Proof.
  rewrite (init_sentry_disabled_still_initializes
             (snd (init_config (sample_process ∅)))).
  - vm_compute. reflexivity.
  - vm_compute. reflexivity.
Defined.

(** ** Error handlers *)

Lemma init_error_handlers_eq (w : World) :
  init_error_handlers w
  = (Ok tt,
     set_app (set_error_handler_spec
                ([(None, C_APIError, error_handler);
                  (Some 429%Z, C_HTTP 429, error_429_handler);
                  (Some 404%Z, C_HTTP 404, error_404_handler)]
                 ++ error_handler_spec (app w)) (app w)) w).
Proof. by destruct w as [? ? ? ? ? [] ? ? ? ? ?]. Qed.




(** ** Blueprint discovery *)

Lemma register_blueprint_fresh (bp : Blueprint) (w : World) :
  blueprints (app w) !! bp_name bp = None ->
  register_blueprint bp w = (Ok tt, set_app (bind_blueprint (app w) bp) w).
Proof. intros H. unfold register_blueprint. by rewrite H. Qed.

(** Flask refuses a different blueprint under a name that is taken. *)
Lemma register_blueprint_name_collision (bp old : Blueprint) (w : World) :
  blueprints (app w) !! bp_name bp = Some old ->
  bp_id old <> bp_id bp ->
  register_blueprint bp w
  = (Raise (AssertionError "A name collision occurred between blueprints"),
     w).
Proof.
  intros H Hid. unfold register_blueprint. rewrite H. by case_decide.
Qed.

Lemma blueprints_foldl_bind (bps : list Blueprint) (a : Flask) :
  blueprints (foldl bind_blueprint a bps)
  = foldl (fun m bp => <[bp_name bp := bp]> m) (blueprints a) bps.
Proof.
  revert a. induction bps as [|bp bps IH]; intros a; simpl; [done|].
  by rewrite IH.
Qed.

Lemma url_map_foldl_bind (bps : list Blueprint) (a : Flask) :
  url_map (foldl bind_blueprint a bps)
  = url_map a ++ concat (bind_rules <$> bps).
Proof.
  revert a. induction bps as [|bp bps IH]; intros a; simpl.
  - by rewrite app_nil_r.
  - rewrite IH. simpl. by rewrite (assoc_L (++)).
Qed.

Lemma foldl_insert_lookup_notin (bps : list Blueprint)
    (m : gmap string Blueprint) (name : string) :
  name ∉ bp_name <$> bps ->
  foldl (fun m bp => <[bp_name bp := bp]> m) m bps !! name = m !! name.
Proof.
  revert m. induction bps as [|bp bps IH]; intros m Hn; simpl; [done|].
  rewrite fmap_cons, not_elem_of_cons in Hn. destruct Hn as [Hne Hn].
  rewrite IH by done. by rewrite lookup_insert_ne.
Qed.

Lemma foldl_insert_lookup_in (bps : list Blueprint)
    (m : gmap string Blueprint) (bp : Blueprint) :
  NoDup (bp_name <$> bps) -> bp ∈ bps ->
  foldl (fun m bp => <[bp_name bp := bp]> m) m bps !! bp_name bp = Some bp.
Proof.
  revert m. induction bps as [|bp' bps IH]; intros m Hnd Hin; simpl.
  - by apply elem_of_nil in Hin.
  - rewrite fmap_cons in Hnd. apply NoDup_cons in Hnd as [Hfresh Hnd].
    apply elem_of_cons in Hin as [->|Hin].
    + rewrite foldl_insert_lookup_notin by done. apply lookup_insert_eq.
    + by apply IH.
Qed.

(** The loop over modules that import, whose blueprints have fresh and
    distinct names, binds them one after the other. *)
Lemma for_each_register_module (ms : list (string * result PyModule))
    (w : World) :
  Forall imported ms ->
  NoDup (bp_name <$> discovered_blueprints ms) ->
  (forall bp, bp ∈ discovered_blueprints ms ->
              blueprints (app w) !! bp_name bp = None) ->
  for_each ms register_module w
  = (Ok tt,
     set_app (foldl bind_blueprint (app w) (discovered_blueprints ms)) w).
Proof.
  revert w. induction ms as [|[name [md|e]] ms IH]; intros w Himp Hnd Hfresh.
  - simpl. by rewrite set_app_app.
  - apply Forall_cons in Himp as [_ Himp].
    simpl for_each. rewrite bind_unfold. unfold register_module at 1.
    rewrite bind_unfold. unfold lift. simpl.
    unfold discovered_blueprints in *. simpl in *.
    destruct (mod_bp md) as [bp|] eqn:Hbp; simpl in *.
    + apply NoDup_cons in Hnd as [Hnotin Hnd].
      rewrite register_blueprint_fresh by (apply Hfresh; set_solver).
      rewrite IH; [by destruct w|done|done|].
      intros bp' Hin. simpl.
      rewrite lookup_insert_ne.
      * apply Hfresh. set_solver.
      * intros Heq. apply Hnotin. rewrite Heq. by apply list_elem_of_fmap_2.
    + apply IH; done.
  - apply Forall_cons in Himp as [Himp _]. done.
Qed.

Lemma register_blueprints_unfold (w : World) :
  ext_raises w (X_find_modules "fastapi.api") = None ->
  register_blueprints w
  = for_each (api_modules w) register_module
      (set_ext_calls (ext_calls w ++ [X_find_modules "fastapi.api"]) w).
Proof.
  intros Hfind. unfold register_blueprints. rewrite bind_unfold.
  unfold ext. by rewrite Hfind.
Qed.

Lemma for_each_app {A} (l1 l2 : list A) (body : A -> M unit) (w : World) :
  for_each (l1 ++ l2) body w
  = match for_each l1 body w with
    | (Ok _, w1) => for_each l2 body w1
    | (Raise e, w1) => (Raise e, w1)
    end.
Proof.
  revert w. induction l1 as [|x l1 IH]; intros w; simpl; [done|].
  rewrite !bind_unfold. destruct (body x w) as [[[]|e] w1]; [apply IH|done].
Qed.

(** C2, as amended.  Blueprints are registered by name, and path prefixes
    are never compared.  Let [ms] be the modules discovered first, all
    imported, whose blueprints have distinct names not yet registered.
    - If nothing else is discovered, [register_blueprints] returns: every
      module without [bp] was skipped, every blueprint is registered under
      its name, and its rules are bound under its own prefix, in discovery
      order, whether the prefixes are distinct or equal.
    - If the next module's blueprint has the name of a different blueprint
      discovered before it, Flask's assertion fails and
      [register_blueprints] raises. *)
Theorem register_blueprints_by_name (w : World)
    (ms rest : list (string * result PyModule)) :
  ext_raises w (X_find_modules "fastapi.api") = None ->
  api_modules w = ms ++ rest ->
  Forall imported ms ->
  NoDup (bp_name <$> discovered_blueprints ms) ->
  (forall bp, bp ∈ discovered_blueprints ms ->
              blueprints (app w) !! bp_name bp = None) ->
  (rest = [] ->
   exists w',
     register_blueprints w = (Ok tt, w')
     /\ (forall bp, bp ∈ discovered_blueprints ms ->
                    blueprints (app w') !! bp_name bp = Some bp)
     /\ url_map (app w')
        = url_map (app w) ++ concat (bind_rules <$> discovered_blueprints ms))
  /\ (forall name md bp old rest',
        rest = (name, Ok md) :: rest' ->
        mod_bp md = Some bp ->
        old ∈ discovered_blueprints ms ->
        bp_name old = bp_name bp ->
        bp_id old <> bp_id bp ->
        fst (register_blueprints w)
        = Raise (AssertionError
                   "A name collision occurred between blueprints")).
Proof.
  intros Hfind Hmods Himp Hnd Hfresh.
  rewrite register_blueprints_unfold, Hmods by done. split.
  - intros ->. rewrite app_nil_r.
    eexists. split; [|split].
    + by apply for_each_register_module.
    + intros bp Hin. simpl. rewrite blueprints_foldl_bind.
      by apply foldl_insert_lookup_in.
    + simpl. by rewrite url_map_foldl_bind.
  - intros name md bp old rest' -> Hbp Hold Hname Hid.
    rewrite for_each_app, for_each_register_module by done.
    simpl for_each. rewrite bind_unfold. unfold register_module at 1.
    rewrite bind_unfold. unfold lift. simpl. rewrite Hbp.
    rewrite (register_blueprint_name_collision bp old); [done| |done].
    simpl. rewrite blueprints_foldl_bind, <- Hname.
    by apply foldl_insert_lookup_in.
Qed.

Lemma register_blueprints_witness :
  exists w',
    register_blueprints (sample_process ∅) = (Ok tt, w')
    /\ (forall bp,
          bp ∈ discovered_blueprints sample_modules ->
          blueprints (app w') !! bp_name bp = Some bp)
    /\ url_map (app w')
       = url_map (app (sample_process ∅))
         ++ concat (bind_rules <$> discovered_blueprints sample_modules).
Proof.
  apply (register_blueprints_by_name (sample_process ∅) sample_modules []).
  - reflexivity.
  - reflexivity.
  - repeat constructor.
  - apply (bool_decide_unpack (NoDup _)). vm_compute. exact I.
  - intros bp _. reflexivity.
  - reflexivity.
Defined.

(** C2 as the specification states it fails: the two routable modules of
    the sample deployment both claim the prefix [/a], and discovery returns
    with both registered and both sets of rules bound. *)
Lemma shared_prefix_counterexample :
  url_prefix users_bp = Some "/a" /\ url_prefix orders_bp = Some "/a"
  /\ fst (register_blueprints (sample_process ∅)) = Ok tt
  /\ blueprints (app (snd (register_blueprints (sample_process ∅))))
       !! "users" = Some users_bp
  /\ blueprints (app (snd (register_blueprints (sample_process ∅))))
       !! "orders" = Some orders_bp
  /\ url_map (app (snd (register_blueprints (sample_process ∅))))
     = [{| rule_prefix := Some "/a"; rule_path := "/list";
           rule_endpoint := "users.index" |};
        {| rule_prefix := Some "/a"; rule_path := "/recent";
           rule_endpoint := "orders.recent" |}].
Proof. split_and!; vm_compute; reflexivity. Qed.

(** ** Tasks and the application context *)

Lemma replicate_app_cons {X} (n : nat) (x : X) (l : list X) :
  replicate n x ++ x :: l = x :: replicate n x ++ l.
Proof. induction n as [|n IH]; simpl; [done|]. by rewrite IH. Qed.

(** A task of class [cls] runs its unit under as many contexts as the class
    has [ContextTask] layers; when the unit leaves the stack as it found
    it, the call returns what the unit returns or raises, with the stack as
    it was before the call. *)
Lemma task_call_eq {A} (cls : TaskClass) (run : M A) (w : World) :
  let w_in :=
    set_app_ctx_stack (replicate (nesting cls) the_context ++ app_ctx_stack w)
                      w in
  app_ctx_stack (snd (run w_in)) = app_ctx_stack w_in ->
  task_call cls run w
  = (fst (run w_in), set_app_ctx_stack (app_ctx_stack w) (snd (run w_in))).
Proof.
  revert w. induction cls as [|TaskBase IH]; intros w; simpl.
  - rewrite set_app_ctx_stack_id. intros <-.
    rewrite set_app_ctx_stack_id. by destruct (run w).
  - intros Hrun. rewrite with_app_context_eq. simpl.
    rewrite <- replicate_app_cons in Hrun.
    rewrite IH; simpl; rewrite !set_app_ctx_stack_twice; [|done].
    by rewrite replicate_app_cons.
Qed.



(** ** Configuration seen by a task and by a request *)

(** A bootstrap that completes leaves in [app.config] what [init_config]
    loaded: the upper-case attributes of the selected profile over the
    configuration the application was created with. *)
Lemma init_app_config (w : World) :
  fst (init_app w) = Ok tt ->
  exists obj,
    profiles w !! default "dev" (environ w !! "FASTAPI_MODE") = Some obj
    /\ config (app (snd (init_app w)))
       = filter (fun kv => isupper kv.1 = true) obj ∪ config (app w).
Proof.
  intros Hok. pose proof bodies_preserve_config as H. split_Forall H.
  unfold init_app in *.
  rewrite (seq_preserved (fun w => config (app w))).
  2:{ repeat (apply preserves_bind; [by apply preserves_call | intros _]).
      by apply preserves_call. }
  apply seq_ok in Hok. revert Hok.
  unfold call, init_config, mbind, M_bind, bind, environ_get, gets,
    profile_getitem. simpl.
  destruct (profiles w !! _) as [obj|]; [|done].
  intros _. by exists obj.
Qed.

(** It also leaves [celery.Task] a [ContextTask]. *)
Lemma init_app_celery_Task (w : World) :
  fst (init_app w) = Ok tt ->
  celery_Task (snd (init_app w)) = ContextTask (celery_Task w).
Proof.
  intros Hok. pose proof bodies_preserve_celery_Task as H. split_Forall H.
  unfold init_app in *.
  do 7 (rewrite (seq_ok_r _ _ _ _ Hok) in Hok |- *;
        match goal with
        | |- context [snd (call ?f ?b ?w0)] =>
            rewrite <- (preserves_call celery_Task f b (fun _ _ => eq_refl)
                          ltac:(assumption) w0);
            generalize dependent (snd (call f b w0)); intros ? ?
        end).
  rewrite (seq_preserved celery_Task).
  2:{ repeat (apply preserves_bind; [by apply preserves_call | intros _]).
      by apply preserves_call. }
  reflexivity.
Qed.

Lemma read_config_stack_neutral (k : string) : stack_neutral (read_config k).
Proof.
  change (preserves app_ctx_stack (read_config k)).
  unfold read_config. solve_preserves.
Qed.

(** A request reads the configuration of the application of its process. *)
Lemma observed_by_request_eq (k : string) (w : World) :
  observed_by_request k w = (Ok (config (app w) !! k), w).
Proof.
  unfold observed_by_request. rewrite with_app_context_eq. simpl.
  by rewrite set_app_ctx_stack_twice, set_app_ctx_stack_id.
Qed.

(** So does a task of a [ContextTask] class. *)
Lemma observed_by_task_eq (k : string) (TaskBase : TaskClass) (w : World) :
  celery_Task w = ContextTask TaskBase ->
  observed_by_task k w = (Ok (config (app w) !! k), w).
Proof.
  intros Hcls. unfold observed_by_task. rewrite Hcls.
  rewrite task_call_eq by apply read_config_stack_neutral. simpl.
  by rewrite set_app_ctx_stack_twice, set_app_ctx_stack_id.
Qed.

(** C7, as amended.  No context is captured when a unit is scheduled: a
    unit run through [ContextTask] reads the configuration of the
    application of the process that executes it, as that process's own
    bootstrap loaded it.  The value is the one a request of the scheduling
    process observes whenever the two processes were created alike (same
    profile table, same initial configuration) and their environments select
    the same profile; one process scheduling for itself is such a pair. *)
Theorem task_observes_loaded_config (web worker : World) (k : string) :
  fst (init_app web) = Ok tt ->
  fst (init_app worker) = Ok tt ->
  profiles web = profiles worker ->
  config (app web) = config (app worker) ->
  default "dev" (environ web !! "FASTAPI_MODE")
  = default "dev" (environ worker !! "FASTAPI_MODE") ->
  fst (observed_by_task k (snd (init_app worker)))
  = Ok (config (app (snd (init_app worker))) !! k)
  /\ fst (observed_by_task k (snd (init_app worker)))
     = fst (observed_by_request k (snd (init_app web))).
Proof.
  intros Hweb Hworker Hprof Hconf Henv.
  rewrite (observed_by_task_eq k (celery_Task worker))
    by by apply init_app_celery_Task.
  rewrite observed_by_request_eq. simpl. split; [done|].
  destruct (init_app_config web Hweb) as (obj & Hobj & ->).
  destruct (init_app_config worker Hworker) as (obj' & Hobj' & ->).
  rewrite Hprof, Henv, Hobj' in Hobj. simplify_eq. by rewrite Hconf.
Qed.

Lemma task_observes_loaded_config_witness :
  fst (observed_by_task "PAGE_SIZE"
         (snd (init_app (sample_process {["FASTAPI_MODE" := "dev"]}))))
  = fst (observed_by_request "PAGE_SIZE" (snd (init_app (sample_process ∅)))).
Proof.
  apply (task_observes_loaded_config (sample_process ∅)
           (sample_process {["FASTAPI_MODE" := "dev"]}) "PAGE_SIZE").
  - vm_compute. reflexivity.
  - vm_compute. reflexivity.
  - reflexivity.
  - reflexivity.
  - reflexivity.
Defined.

(** C7 as the specification states it fails: a request served by a process
    started in the development profile observes a page size of 20, and the
    unit it schedules, executed by a worker started in the production
    profile, observes 50. *)
Lemma worker_profile_counterexample :
  fst (init_app (sample_process {["FASTAPI_MODE" := "dev"]})) = Ok tt
  /\ fst (init_app (sample_process {["FASTAPI_MODE" := "prod"]})) = Ok tt
  /\ fst (observed_by_request "PAGE_SIZE"
            (snd (init_app (sample_process {["FASTAPI_MODE" := "dev"]}))))
     = Ok (Some (VInt 20))
  /\ fst (observed_by_task "PAGE_SIZE"
            (snd (init_app (sample_process {["FASTAPI_MODE" := "prod"]}))))
     = Ok (Some (VInt 50)).
Proof. split_and!; vm_compute; reflexivity. Qed.

(** * Further properties of the module *)

Ltac unfold_all_M :=
  unfold mbind, M_bind, bind, mret, M_ret, ret, raise, lift, gets, modify,
    modify_app, config_getitem, config_get, isdir, mkdir, ext, addHandler,
    logger_info, logger_debug, logger_log in *.

(** ** Loading the configuration *)

Lemma init_config_eq (w : World) (obj : gmap string PyVal) :
  profiles w !! run_mode w = Some obj ->
  init_config w
  = (Ok tt,
     set_app (set_config (filter (fun kv => isupper kv.1 = true) obj
                          ∪ config (app w)) (app w)) w).
Proof.
  intros Hprof. unfold init_config, mbind, M_bind, bind, environ_get, gets,
    profile_getitem. simpl. fold (run_mode w). by rewrite Hprof.
Qed.




(** X2.  Loading the configuration a second time changes nothing: with the
    environment and the profile table as they are, [init_config] run on the
    process it has left returns the same process. *)
Theorem init_config_idempotent (w : World) (obj : gmap string PyVal) :
  profiles w !! run_mode w = Some obj ->
  init_config (snd (init_config w)) = init_config w.
Proof.
  intros Hprof. rewrite (init_config_eq w obj Hprof). simpl.
  rewrite (init_config_eq _ obj) by done. simpl.
  f_equal. destruct w as [? ? ? ? ? [] ? ? ? ? ?]; simpl.
  unfold set_app, set_config; simpl. do 2 f_equal.
  by rewrite (assoc_L (∪)), (idemp_L (∪)).
Qed.

Lemma init_config_idempotent_witness :
  init_config (snd (init_config (sample_process {["FASTAPI_MODE" := "prod"]})))
  = init_config (sample_process {["FASTAPI_MODE" := "prod"]}).
Proof.
  apply (init_config_idempotent
           (sample_process {["FASTAPI_MODE" := "prod"]}) ProdConfig).
  reflexivity.
Defined.

(** ** The logger *)

(** X3.  With [LOG_PATH] and [LOG_FILENAME] strings, [LOG_LEVEL] one of
    debug, info, warning, error, critical in any letter case, and the file
    system answering, [init_logger] returns; it has added to [app.logger] a
    stream handler and then a daily rotating file handler on
    [os.path.join(LOG_PATH, LOG_FILENAME)], both at the configured level, and
    logged its success message at INFO; the log directory exists, having
    been created only if it was not there. *)
Theorem init_logger_installs_handlers (w : World) (dir fname lv : string)
    (level : Z) :
  config (app w) !! "LOG_PATH" = Some (VStr dir) ->
  config (app w) !! "LOG_FILENAME" = Some (VStr fname) ->
  config (app w) !! "LOG_LEVEL" = Some (VStr lv) ->
  assoc (lower lv) LEVELS = Some level ->
  (dir ∉ dirs w -> ext_raises w (X_mkdir dir) = None) ->
  ext_raises w (X_open_log (path_join dir fname)) = None ->
  let w' := snd (init_logger w) in
  fst (init_logger w) = Ok tt
  /\ logger_handlers (app w')
     = logger_handlers (app w)
       ++ [stream_handler level; rotate_handler (path_join dir fname) level]
  /\ logger_records (app w')
     = logger_records (app w) ++ [info "初始化日志成功"]
  /\ dirs w' = {[dir]} ∪ dirs w
  /\ ext_calls w'
     = ext_calls w
       ++ (if bool_decide (dir ∈ dirs w) then [] else [X_mkdir dir])
       ++ [X_open_log (path_join dir fname)].
Proof.
  intros Hpath Hname Hlv Hlevel Hmkdir Hopen w'. subst w'.
  unfold init_logger. do 2 unfold_all_M.
  cbn -[assoc LEVELS path_join lower].
  rewrite Hpath. cbn -[assoc LEVELS path_join lower].
  rewrite Hpath. cbn -[assoc LEVELS path_join lower].
  rewrite Hname. cbn -[assoc LEVELS path_join lower].
  case_bool_decide as Hdir; cbn -[assoc LEVELS path_join lower].
  - rewrite Hlv. cbn -[assoc LEVELS path_join lower].
    rewrite Hopen, Hlevel. cbn -[assoc LEVELS path_join lower].
    split_and!; try done.
    + by rewrite <- (assoc_L (++)).
    + apply set_eq. intros x. rewrite elem_of_union, elem_of_singleton.
      split; [auto | intros [->|?]; auto].
  - rewrite (Hmkdir Hdir). cbn -[assoc LEVELS path_join lower].
    rewrite Hlv. cbn -[assoc LEVELS path_join lower].
    rewrite Hopen, Hlevel. cbn -[assoc LEVELS path_join lower].
    split_and!; try done.
    + by rewrite <- (assoc_L (++)).
    + by rewrite <- (assoc_L (++)).
Qed.

Lemma init_logger_installs_handlers_witness :
  fst (init_logger (configured (logging_config (Some "Warning")))) = Ok tt
  /\ logger_handlers
       (app (snd (init_logger (configured (logging_config (Some "Warning"))))))
     = [stream_handler 30; rotate_handler "logs/fastapi.log" 30].
Proof.
  destruct (init_logger_installs_handlers
              (configured (logging_config (Some "Warning")))
              "logs" "fastapi.log" "Warning" 30
              ltac:(vm_compute; reflexivity) ltac:(vm_compute; reflexivity)
              ltac:(vm_compute; reflexivity) ltac:(vm_compute; reflexivity)
              ltac:(intros _; reflexivity) ltac:(reflexivity))
    as (Hok & Hhandlers & _).
  split; [exact Hok | exact Hhandlers].
Defined.

(** X4.  A [LOG_LEVEL] that is none of the five names makes [init_logger]
    raise [ValueError]: the fallback of the level table is the string
    ['info'], which [setLevel] does not accept.  By then the log file has
    been opened, but no handler is added and nothing is logged. *)
Theorem init_logger_unknown_level (w : World) (dir fname lv : string) :
  config (app w) !! "LOG_PATH" = Some (VStr dir) ->
  config (app w) !! "LOG_FILENAME" = Some (VStr fname) ->
  config (app w) !! "LOG_LEVEL" = Some (VStr lv) ->
  assoc (lower lv) LEVELS = None ->
  (dir ∉ dirs w -> ext_raises w (X_mkdir dir) = None) ->
  ext_raises w (X_open_log (path_join dir fname)) = None ->
  fst (init_logger w) = Raise (ValueError "Unknown level: 'info'")
  /\ app (snd (init_logger w)) = app w
  /\ X_open_log (path_join dir fname) ∈ ext_calls (snd (init_logger w)).
Proof.
  intros Hpath Hname Hlv Hlevel Hmkdir Hopen.
  unfold init_logger. do 2 unfold_all_M.
  cbn -[assoc LEVELS path_join lower].
  rewrite Hpath. cbn -[assoc LEVELS path_join lower].
  rewrite Hpath. cbn -[assoc LEVELS path_join lower].
  rewrite Hname. cbn -[assoc LEVELS path_join lower].
  case_bool_decide as Hdir; cbn -[assoc LEVELS path_join lower].
  - rewrite Hlv. cbn -[assoc LEVELS path_join lower].
    rewrite Hopen, Hlevel. cbn -[path_join].
    split_and!; try done. apply elem_of_app. right. apply list_elem_of_here.
  - rewrite (Hmkdir Hdir). cbn -[assoc LEVELS path_join lower].
    rewrite Hlv. cbn -[assoc LEVELS path_join lower].
    rewrite Hopen, Hlevel. cbn -[path_join].
    split_and!; try done. apply elem_of_app. right. apply list_elem_of_here.
Qed.

Lemma init_logger_unknown_level_witness :
  fst (init_logger (configured (logging_config (Some "verbose"))))
  = Raise (ValueError "Unknown level: 'info'").
Proof.
  apply (init_logger_unknown_level
           (configured (logging_config (Some "verbose")))
           "logs" "fastapi.log" "verbose").
  - vm_compute. reflexivity.
  - vm_compute. reflexivity.
  - vm_compute. reflexivity.
  - vm_compute. reflexivity.
  - intros _. reflexivity.
  - reflexivity.
Defined.

(** X5.  When [LOG_PATH] is missing from the configuration, or
    [LOG_FILENAME] is while [LOG_PATH] is a string, [init_logger] raises
    [KeyError] and the process is exactly as before: no directory is
    created, no file opened, no handler added. *)
Theorem init_logger_missing_path_or_name (w : World) :
  config (app w) !! "LOG_PATH" = None
  \/ (exists dir, config (app w) !! "LOG_PATH" = Some (VStr dir)
                  /\ config (app w) !! "LOG_FILENAME" = None) ->
  exists key, init_logger w = (Raise (KeyError key), w).
Proof.
  intros [Hpath | (dir & Hpath & Hname)].
  - exists "LOG_PATH". unfold init_logger. do 2 unfold_all_M.
    cbn -[assoc LEVELS path_join lower]. by rewrite Hpath.
  - exists "LOG_FILENAME". unfold init_logger. do 2 unfold_all_M.
    cbn -[assoc LEVELS path_join lower].
    rewrite Hpath. cbn -[assoc LEVELS path_join lower].
    rewrite Hpath. cbn -[assoc LEVELS path_join lower].
    by rewrite Hname.
Qed.

Lemma init_logger_missing_path_witness :
  exists key,
    init_logger (sample_process ∅) = (Raise (KeyError key), sample_process ∅).
Proof.
  apply (init_logger_missing_path_or_name (sample_process ∅)).
  left. reflexivity.
Defined.

(** X6.  A missing [LOG_LEVEL] is noticed late: when the log directory does
    not exist yet, [init_logger] has already created it when it raises
    [KeyError]; the log file is not opened and no handler is added. *)
Theorem init_logger_missing_level (w : World) (dir fname : string) :
  config (app w) !! "LOG_PATH" = Some (VStr dir) ->
  config (app w) !! "LOG_FILENAME" = Some (VStr fname) ->
  config (app w) !! "LOG_LEVEL" = None ->
  dir ∉ dirs w ->
  ext_raises w (X_mkdir dir) = None ->
  init_logger w
  = (Raise (KeyError "LOG_LEVEL"),
     set_dirs ({[dir]} ∪ dirs w)
       (set_ext_calls (ext_calls w ++ [X_mkdir dir]) w)).
Proof.
  intros Hpath Hname Hlv Hdir Hmkdir.
  unfold init_logger. do 2 unfold_all_M.
  cbn -[assoc LEVELS path_join lower].
  rewrite Hpath. cbn -[assoc LEVELS path_join lower].
  rewrite Hpath. cbn -[assoc LEVELS path_join lower].
  rewrite Hname. cbn -[assoc LEVELS path_join lower].
  rewrite bool_decide_eq_false_2 by done. cbn -[assoc LEVELS path_join lower].
  rewrite Hmkdir. cbn -[assoc LEVELS path_join lower].
  by rewrite Hlv.
Qed.

Lemma init_logger_missing_level_witness :
  init_logger (configured (logging_config None))
  = (Raise (KeyError "LOG_LEVEL"),
     set_dirs ({["logs"]} ∪ dirs (configured (logging_config None)))
       (set_ext_calls
          (ext_calls (configured (logging_config None)) ++ [X_mkdir "logs"])
          (configured (logging_config None)))).
Proof.
  apply (init_logger_missing_level (configured (logging_config None))
           "logs" "fastapi.log").
  - vm_compute. reflexivity.
  - vm_compute. reflexivity.
  - vm_compute. reflexivity.
  - apply not_elem_of_empty.
  - reflexivity.
Defined.

(** ** Error handlers, once more *)

(** X7.  Whatever handlers were registered before, after
    [init_error_handlers] a 404 is answered by [error_404_handler], a 429 by
    [error_429_handler] and an [APIError] by [error_handler]; this does not
    depend on the debug or testing mode of the application. *)
Theorem mapped_failures_reach_their_handlers (w : World) :
  let a := app (snd (init_error_handlers w)) in
  handle_failure a (C_HTTP 404)
  = Responded (HandlerResponse error_404_handler (C_HTTP 404))
  /\ handle_failure a (C_HTTP 429)
     = Responded (HandlerResponse error_429_handler (C_HTTP 429))
  /\ handle_failure a C_APIError
     = Responded (HandlerResponse error_handler C_APIError).
Proof.
  intros a. subst a. rewrite init_error_handlers_eq. simpl.
  unfold handle_failure, handle_user_exception, find_error_handler,
    lookup_handler. simpl. done.
Qed.

(** ** Discovery that fails half way *)

(** X8.  When a discovered module fails to import, [register_blueprints]
    raises the import's exception at that module: the blueprints of the
    modules discovered before it stay registered with their rules bound, and
    the modules after it are not looked at. *)
Theorem register_blueprints_import_error (w : World)
    (ms rest : list (string * result PyModule)) (name : string) (e : Exn) :
  ext_raises w (X_find_modules "fastapi.api") = None ->
  api_modules w = ms ++ (name, Raise e) :: rest ->
  Forall imported ms ->
  NoDup (bp_name <$> discovered_blueprints ms) ->
  (forall bp, bp ∈ discovered_blueprints ms ->
              blueprints (app w) !! bp_name bp = None) ->
  register_blueprints w
  = (Raise e,
     set_app (foldl bind_blueprint (app w) (discovered_blueprints ms))
       (set_ext_calls (ext_calls w ++ [X_find_modules "fastapi.api"]) w)).
Proof.
  intros Hfind Hmods Himp Hnd Hfresh.
  rewrite register_blueprints_unfold, Hmods by done.
  rewrite for_each_app, for_each_register_module by done.
  reflexivity.
Qed.

Lemma register_blueprints_import_error_witness :
  fst (register_blueprints broken_process)
  = Raise (ImportError "fastapi.api.reports")
  /\ blueprints (app (snd (register_blueprints broken_process))) !! "users"
     = Some users_bp
  /\ blueprints (app (snd (register_blueprints broken_process))) !! "orders"
     = None.
Proof.
  rewrite (register_blueprints_import_error broken_process
             [("fastapi.api.users", Ok {| mod_bp := Some users_bp |})]
             [("fastapi.api.orders", Ok {| mod_bp := Some orders_bp |})]
             "fastapi.api.reports" (ImportError "fastapi.api.reports")).
  - split_and!; vm_compute; reflexivity.
  - reflexivity.
  - reflexivity.
  - repeat constructor.
  - apply (bool_decide_unpack (NoDup _)). vm_compute. exact I.
  - intros bp _. reflexivity.
Defined.

(** ** Tasks before and after [init_celery] *)

(** X9.  A task of Celery's own class, called where no application context
    is active, cannot read the configuration: [current_app] raises
    [RuntimeError].  Once [init_celery] has run, the same read through the
    installed task class returns the value in [app.config]. *)
Theorem task_needs_ContextTask (w : World) (k : string) :
  app_ctx_stack w = [] ->
  celery_Task w = Task ->
  fst (observed_by_task k w)
  = Raise (RuntimeError "Working outside of application context.")
  /\ fst (observed_by_task k (snd (init_celery w)))
     = Ok (config (app w) !! k).
Proof.
  intros Hstack Hcls. split.
  - unfold observed_by_task. rewrite Hcls. simpl.
    unfold read_config. rewrite bind_unfold. unfold current_app.
    by rewrite Hstack.
  - by rewrite (observed_by_task_eq k (celery_Task w)).
Qed.

Lemma task_needs_ContextTask_witness :
  fst (observed_by_task "PAGE_SIZE" (snd (init_config (sample_process ∅))))
  = Raise (RuntimeError "Working outside of application context.")
  /\ fst (observed_by_task "PAGE_SIZE"
            (snd (init_celery (snd (init_config (sample_process ∅))))))
     = Ok (config (app (snd (init_config (sample_process ∅)))) !! "PAGE_SIZE").
Proof.
  apply (task_needs_ContextTask (snd (init_config (sample_process ∅)))
           "PAGE_SIZE").
  - vm_compute. reflexivity.
  - vm_compute. reflexivity.
Defined.

(** ** Statements of one line *)

Lemma replace_absent (old new : ascii) (s : string) :
  string_forallb (fun c => negb (Ascii.eqb c old)) s = true ->
  replace old new s = s.
Proof.
  induction s as [|c s IH]; simpl; [done|].
  intros [Hc Hs]%andb_true_iff. rewrite (IH Hs).
  by destruct (Ascii.eqb c old).
Qed.

(** X10.  A statement that contains no newline is logged verbatim: the
    record the after-hook hands to the logger carries the statement text
    unchanged between the cost and the parameters. *)
Theorem single_line_statement_logged_verbatim (now start : Z)
    (conn cursor : Handle) (statement : string) (parameters : Parameters)
    (context : ExecContext) (exceutemany : bool) (w : World) :
  query_start_ts context = Some start ->
  string_forallb (fun c => negb (Ascii.eqb c newline)) statement = true ->
  after_cursor_execute now conn cursor statement parameters context
    exceutemany w
  = (Ok tt,
     log_appended logging_DEBUG
       (sql_log_line (now - start) statement (render_parameters parameters))
       w).
Proof.
  intros Hstart Hline. rewrite after_cursor_execute_eq, Hstart.
  by rewrite replace_absent.
Qed.

Lemma single_line_statement_witness :
  after_cursor_execute 1700000000140 1 2 "SELECT 1" (PTuple [VInt 7])
    {| query_start_ts := Some 1700000000123%Z |} false (sample_process ∅)
  = (Ok tt,
     log_appended logging_DEBUG "[cost: 17ms]sql: SELECT 1, params: 7"
       (sample_process ∅)).
Proof.
  apply (single_line_statement_logged_verbatim 1700000000140 1700000000123
           1 2 "SELECT 1" (PTuple [VInt 7])
           {| query_start_ts := Some 1700000000123%Z |} false (sample_process ∅)).
  - reflexivity.
  - reflexivity.
Defined.

(** ** What a completed bootstrap leaves behind *)

Section Effect.
Context {B : Type} (p : World -> B).

Lemma effect_preserves {A} (m : M A) : preserves p m -> effect p eq m.
Proof. intros Hm w a w' H. specialize (Hm w). rewrite H in Hm. done. Qed.

Lemma effect_bind {A C} (R1 R2 : B -> B -> Prop) (m : M A) (k : A -> M C) :
  effect p R1 m -> (forall a, effect p R2 (k a)) ->
  effect p (and_then R1 R2) (m ≫= k).
Proof.
  intros Hm Hk w c w'. rewrite bind_unfold.
  destruct (m w) as [[a|e] w1] eqn:Hmw; [|done].
  intros Hkw. exists (p w1). split; [by eapply Hm | by eapply Hk].
Qed.

Lemma effect_call (R : B -> B -> Prop) (f : Func) (body : M unit) :
  (forall l w, p (set_calls l w) = p w) ->
  effect p R body -> effect p R (call f body).
Proof.
  intros Hp Hb w a w' H. unfold call in H.
  rewrite <- (Hp (calls w ++ [f]) w). by eapply Hb.
Qed.

Lemma effect_weaken {A} (R R' : B -> B -> Prop) (m : M A) :
  effect p R m -> (forall x y, R x y -> R' x y) -> effect p R' m.
Proof. intros Hm HR w a w' H. apply HR. by eapply Hm. Qed.
End Effect.

Ltac primitive_preserves := solve [unfold_module; solve_preserves].

Ltac unfold_bodies :=
  unfold init_config, init_logger, init_db, init_redis, register_blueprints,
    init_error_handlers, init_hooks, init_sentry, init_celery, init_limiter,
    init_cache, register_signal_handlers.

(** The effect on [p] of a sequence of primitives: [writer] settles those
    that write [p], the others preserve it. *)
Ltac effect_steps writer :=
  repeat (eapply effect_bind;
          [ first [ writer | apply effect_preserves; primitive_preserves ]
          | intros ? ]);
  first [ writer | apply effect_preserves; primitive_preserves ].

(** The same for [init_app], body after body. *)
Ltac init_app_effect writer :=
  unfold init_app;
  repeat (eapply effect_bind;
          [ apply effect_call; [done|];
            first [ writer | unfold_bodies; effect_steps writer ]
          | intros _ ]);
  apply effect_call; [done|];
  first [ writer | unfold_bodies; effect_steps writer ].

Ltac and_then_inv :=
  repeat match goal with
         | H : and_then _ _ _ _ |- _ => destruct H as (? & ? & ?)
         end;
  unfold appends in *; subst.

Lemma logger_info_appends (msg : string) :
  effect records_of (appends [info msg]) (logger_info msg).
Proof.
  intros w a w' H. unfold logger_info, logger_log, modify in H.
  by simplify_eq.
Qed.

Lemma init_app_logs : effect records_of (appends bootstrap_messages) init_app.
Proof.
  eapply effect_weaken.
  - init_app_effect ltac:(apply logger_info_appends).
  - intros x y H. and_then_inv.
    unfold appends. by rewrite <- !(assoc_L (++)).
Qed.











(** X11.  A bootstrap that completes has logged exactly five records, all
    at INFO and in this order: the success messages of the logger, the
    database, Redis, Sentry and Celery.  The other seven steps log
    nothing. *)
Theorem bootstrap_log_messages (w : World) :
  fst (init_app w) = Ok tt ->
  logger_records (app (snd (init_app w)))
  = logger_records (app w) ++ bootstrap_messages.
Proof.
  intros Hok.
  destruct (init_app w) as [[[]|e] w'] eqn:Hrun; [|done].
  apply (init_app_logs _ _ _ Hrun).
Qed.

Lemma bootstrap_log_messages_witness :
  logger_records (app (snd (init_app (sample_process ∅))))
  = logger_records (app (sample_process ∅)) ++ bootstrap_messages.
Proof.
  apply (bootstrap_log_messages (sample_process ∅)).
  vm_compute. reflexivity.
Defined.





(** ** The collaborators, in order *)

Lemma ext_appends (c : ExtCall) (K : Collaborator) :
  collaborator c = K ->
  effect collaborators_called (appends [K]) (ext c).
Proof.
  intros <- w a w' H. unfold ext in H.
  destruct (ext_raises w c); simplify_eq.
  unfold collaborators_called, appends. simpl. by rewrite fmap_app.
Qed.

Ltac ext_writer :=
  match goal with
  | |- effect _ _ (ext ?c) =>
      let K := eval cbv in (collaborator c) in
      apply (ext_appends c K eq_refl)
  end.

Lemma init_logger_touches_files :
  effect collaborators_called
    (fun x y => y = x ++ [FileSystem] \/ y = x ++ [FileSystem; FileSystem])
    init_logger.
Proof.
  intros w a w' H. unfold init_logger in H. do 2 unfold_all_M.
  cbn -[assoc LEVELS path_join lower] in H.
  unfold collaborators_called.
  repeat (case_match; simplify_eq/=; try done);
    rewrite ?fmap_app; simpl; rewrite <- ?(assoc_L (++)); auto.
Qed.

Lemma init_app_collaborators :
  effect collaborators_called
    (fun x y => exists fs,
       (fs = [FileSystem] \/ fs = [FileSystem; FileSystem])
       /\ y = x ++ fs ++ extensions_in_order)
    init_app.
Proof.
  eapply effect_weaken.
  - init_app_effect
      ltac:(first [apply init_logger_touches_files | ext_writer]).
  - intros x y H. and_then_inv.
    match goal with
    | H : _ \/ _ |- _ => destruct H as [-> | ->]
    end.
    + exists [FileSystem]. split; [by left|].
      by rewrite <- !(assoc_L (++)).
    + exists [FileSystem; FileSystem]. split; [by right|].
      by rewrite <- !(assoc_L (++)).
Qed.

(** X14.  A bootstrap that completes has called each extension exactly
    once, in the order database, Redis, Sentry, limiter, cache, module
    discovery, signal handlers; before them it has touched only the file
    system, with one call or two: [init_logger] opens the log file, after
    creating the log directory where it has to. *)
Theorem bootstrap_collaborators (w : World) :
  fst (init_app w) = Ok tt ->
  exists fs,
    (fs = [FileSystem] \/ fs = [FileSystem; FileSystem])
    /\ collaborators_called (snd (init_app w))
       = collaborators_called w ++ fs ++ extensions_in_order.
Proof.
  intros Hok.
  destruct (init_app w) as [[[]|e] w'] eqn:Hrun; [|done].
  apply (init_app_collaborators _ _ _ Hrun).
Qed.

Lemma bootstrap_collaborators_witness :
  exists fs,
    (fs = [FileSystem] \/ fs = [FileSystem; FileSystem])
    /\ collaborators_called (snd (init_app (sample_process ∅)))
       = collaborators_called (sample_process ∅) ++ fs ++ extensions_in_order.
Proof.
  assert (fst (init_app (sample_process ∅)) = Ok tt) as Hok
    by (vm_compute; reflexivity).
  exact (bootstrap_collaborators (sample_process ∅) Hok).
Defined.

(** ** Celery's configuration *)






(** ** Collaborators that raise *)

Lemma failfast_quiet {A} (m : M A) :
  preserves ext_raises m -> preserves ext_calls m -> failfast m.
Proof.
  intros Hr Hc w. split; [apply Hr|]. exists []. rewrite app_nil_r.
  split; [apply Hc|]. left. constructor.
Qed.

Lemma failfast_ext (c : ExtCall) : failfast (ext c).
Proof.
  intros w. unfold ext. destruct (ext_raises w c) as [e|] eqn:Hc; simpl.
  - split; [done|]. exists [c]. split; [done|]. right.
    exists [], c, e. by repeat split.
  - split; [done|]. exists [c]. split; [done|]. left. by repeat constructor.
Qed.

Lemma failfast_bind {A C} (m : M A) (k : A -> M C) :
  failfast m -> (forall a, failfast (k a)) -> failfast (m ≫= k).
Proof.
  intros Hm Hk w. rewrite bind_unfold.
  destruct (Hm w) as (Hr1 & l1 & Hc1 & Hs1).
  destruct (m w) as [[a|e] w1]; simpl in *.
  - destruct (Hk a w1) as (Hr2 & l2 & Hc2 & Hs2).
    split; [congruence|]. exists (l1 ++ l2).
    split; [by rewrite Hc2, Hc1, (assoc_L (++))|].
    destruct Hs1 as [Hall1 | (l0 & c & e & _ & _ & _ & ?)]; [|done].
    unfold none_swallowed, answers in *. rewrite Hr1 in Hs2.
    destruct Hs2 as [Hall2 | (l0 & c & e & -> & Hall2 & Hc & Hr)].
    + left. by apply Forall_app.
    + right. exists (l1 ++ l0), c, e. rewrite (assoc_L (++)).
      split_and!; try done. by apply Forall_app.
  - split; [done|]. exists l1. split; [done|].
    destruct Hs1 as [Hall1 | (l0 & c & e' & -> & Hall & Hc & Hr)].
    + by left.
    + right. exists l0, c, e'. by simplify_eq.
Qed.

Lemma failfast_for_each {X} (l : list X) (body : X -> M unit) :
  (forall x, failfast (body x)) -> failfast (for_each l body).
Proof.
  intros Hbody. induction l as [|x l IH]; simpl.
  - apply failfast_quiet; by intros w.
  - apply failfast_bind; auto.
Qed.

Lemma failfast_call (f : Func) (body : M unit) :
  failfast body -> failfast (call f body).
Proof. intros Hb w. unfold call. apply (Hb (set_calls _ w)). Qed.

Ltac failfast_step :=
  first
    [ apply failfast_bind; [| intros ?]
    | apply failfast_ext
    | apply failfast_for_each; intros ?
    | apply failfast_call
    | match goal with
      | |- failfast (if ?b then _ else _) => destruct b
      | |- failfast (match ?x with _ => _ end) => destruct x
      end
    | apply failfast_quiet; primitive_preserves ].

Lemma init_app_failfast : failfast init_app.
Proof.
  unfold init_app. unfold_bodies. unfold register_module, mkdir.
  repeat failfast_step.
Qed.

(** X16.  No step of the bootstrap swallows a collaborator's exception.  If
    among the collaborator calls [init_app] made there is one that raises,
    then [init_app] raised that very exception and the call is the last one
    made: no extension is initialised after a failure. *)
Theorem collaborator_failure_aborts_bootstrap (w : World)
    (l : list ExtCall) (c : ExtCall) (e : Exn) :
  ext_calls (snd (init_app w)) = ext_calls w ++ l ->
  c ∈ l ->
  ext_raises w c = Some e ->
  fst (init_app w) = Raise e /\ last l = Some c.
Proof.
  intros Hcalls Hin Hc.
  destruct (init_app_failfast w) as (_ & l' & Hcalls' & Hs).
  rewrite Hcalls in Hcalls'. apply app_inv_head in Hcalls' as <-.
  destruct Hs as [Hall | (l0 & c' & e' & -> & Hall & Hc' & Hr)].
  - rewrite Forall_forall in Hall. specialize (Hall c Hin).
    unfold answers in Hall. congruence.
  - apply elem_of_app in Hin as [Hin | Hin].
    + rewrite Forall_forall in Hall. specialize (Hall c Hin).
      unfold answers in Hall. congruence.
    + apply list_elem_of_singleton in Hin as ->.
      split; [congruence | by rewrite last_snoc].
Qed.

Lemma collaborator_failure_witness :
  fst (init_app redis_down_process) = Raise (OSError "Connection refused")
  /\ last [X_mkdir "logs"; X_open_log "logs/fastapi.log"; X_db_init_app;
           X_init_redis_client]
     = Some X_init_redis_client.
Proof.
  apply (collaborator_failure_aborts_bootstrap redis_down_process
           [X_mkdir "logs"; X_open_log "logs/fastapi.log"; X_db_init_app;
            X_init_redis_client]
           X_init_redis_client (OSError "Connection refused")).
  - vm_compute. reflexivity.
  - do 3 apply list_elem_of_further. apply list_elem_of_here.
  - reflexivity.
Defined.
